(** * EAA: CdA calculator, time-range selector and venturi mass flow

    A shallow embedding of the numerically meaningful parts of
    [cda_calculator.py] and [handlers/plot_ox_mdot_venturi.py], and the
    properties of them that the specification states.

    Numbers.  Python floats are modelled by the real numbers [R]; a numpy
    array cell is a [Np.float], which adds the one special value the code
    tests for, NaN.  Rounding, overflow and infinities are outside that
    model: its equations are equations between exact reals.  Where rounding,
    NaN or overflow decide what the code does, the two calculator handlers
    are given a second time over binary64 numbers ([Module Binary64]), which
    computes what Python computes.

    Effects.  The Tk callbacks are written in a small monad that threads the
    widget state, collects the message boxes that were shown, and has the two
    ways a Python function body stops early: [return] and a raised exception
    (which keeps the state as it was when the exception was raised, as Python
    does). *)

From Stdlib Require Import PrimFloat.
From Stdlib Require Import Reals Lra Lia Psatz List String Ascii Bool Arith.
Set Warnings "-inexact-float".
Import ListNotations.
Open Scope R_scope.

(** ** numpy / pandas values *)

Module Np.

(** A float64 cell: NaN or a number. *)
Inductive float : Type :=
| nan
| fin (x : R).

Definition isnan (a : float) : bool :=
  match a with nan => true | fin _ => false end.

Definition Rleb (x y : R) : bool := if Rle_dec x y then true else false.
Definition Rltb (x y : R) : bool := if Rlt_dec x y then true else false.

(** Comparisons with NaN are false. *)
Definition ge (a : float) (y : R) : bool :=
  match a with nan => false | fin x => Rleb y x end.
Definition le (a : float) (y : R) : bool :=
  match a with nan => false | fin x => Rleb x y end.
Definition gt (a : float) (y : R) : bool :=
  match a with nan => false | fin x => Rltb y x end.

Definition lift1 (f : R -> R) (a : float) : float :=
  match a with nan => nan | fin x => fin (f x) end.

Definition lift2 (f : R -> R -> R) (a b : float) : float :=
  match a, b with fin x, fin y => fin (f x y) | _, _ => nan end.

Definition sub : float -> float -> float := lift2 Rminus.
Definition scale (k : R) : float -> float := lift1 (fun x => x * k).

(** [np.maximum(a, y)] propagates NaN. *)
Definition maximum (a : float) (y : R) : float := lift1 (fun x => Rmax x y) a.

(** [np.sqrt]: NaN on a negative argument. *)
Definition sqrt (a : float) : float :=
  match a with
  | nan => nan
  | fin x => if Rltb x 0 then nan else fin (R_sqrt.sqrt x)
  end.

(** [np.nan_to_num(a, nan=0.0)] *)
Definition nan_to_num (a : float) : float :=
  match a with nan => fin 0 | fin x => fin x end.

(** [data[mask]]: boolean-mask indexing; a mask of another length raises
    IndexError, here [None]. *)
Fixpoint bool_index {A : Type} (data : list A) (mask : list bool)
  : option (list A) :=
  match data, mask with
  | [], [] => Some []
  | x :: data', b :: mask' =>
      match bool_index data' mask' with
      | Some r => Some (if b then x :: r else r)
      | None => None
      end
  | _, _ => None
  end.

(** An elementwise binary operation; arrays of different lengths do not
    broadcast and raise ValueError, here [None]. *)
Fixpoint elementwise {A B C : Type} (f : A -> B -> C) (a : list A) (b : list B)
  : option (list C) :=
  match a, b with
  | [], [] => Some []
  | x :: a', y :: b' =>
      match elementwise f a' b' with
      | Some r => Some (f x y :: r)
      | None => None
      end
  | _, _ => None
  end.

(** [np.sum(mask)] and [np.any(mask)] *)
Definition count (mask : list bool) : nat := List.length (filter (fun b => b) mask).
Definition any (mask : list bool) : bool := existsb (fun b => b) mask.
Definition all (mask : list bool) : bool := forallb (fun b => b) mask.

(** [np.arange(0, n, step)], for a positive step. *)
Fixpoint arange_from (start step count : nat) : list nat :=
  match count with
  | O => []
  | S c => start :: arange_from (start + step) step c
  end.

Definition arange (n step : nat) : list nat :=
  arange_from 0 step ((n + step - 1) / step).

(** [data[indices]]: integer-array indexing; an index out of range raises
    IndexError. *)
Fixpoint take_indices {A : Type} (data : list A) (indices : list nat)
  : option (list A) :=
  match indices with
  | [] => Some []
  | i :: rest =>
      match nth_error data i, take_indices data rest with
      | Some x, Some r => Some (x :: r)
      | _, _ => None
      end
  end.

(** The numbers of an array that holds no NaN. *)
Fixpoint reals (a : list float) : list R :=
  match a with
  | [] => []
  | nan :: a' => reals a'
  | fin x :: a' => x :: reals a'
  end.

(** [np.polyfit(x, y, 1)]: the least-squares line through the points, as
    (slope, intercept), from the normal equations.  When all [x] are equal
    the system is rank deficient and numpy hands it to LAPACK: what comes
    back (a value with a RankWarning, or LinAlgError, here [None]) is not
    modelled and is taken as a parameter. *)
Fixpoint sum (l : list R) : R :=
  match l with
  | [] => 0
  | x :: l' => x + sum l'
  end.

Definition dot (x y : list R) : R :=
  sum (map (fun p => fst p * snd p) (combine x y)).

Definition fit_denominator (x : list R) : R :=
  INR (List.length x) * dot x x - sum x * sum x.

Definition fit_slope (x y : list R) : R :=
  (INR (List.length x) * dot x y - sum x * sum y) / fit_denominator x.

Definition fit_intercept (x y : list R) : R :=
  (sum y - fit_slope x y * sum x) / INR (List.length x).

Section Polyfit.
Variable lstsq_rank_deficient : list R -> list R -> option (R * R).

Definition polyfit1 (x y : list float) : option (R * R) :=
  let xs := reals x in
  let ys := reals y in
  if Req_dec_T (fit_denominator xs) 0 then lstsq_rank_deficient xs ys
  else Some (fit_slope xs ys, fit_intercept xs ys).

End Polyfit.

End Np.

(** ** Python control flow *)

Module Py.

Inductive exn : Type :=
| ValueError (msg : string)
| KeyError (key : string)
| IndexError
| TypeError
| LinAlgError
| OverflowError
| ZeroDivisionError.

(** [messagebox.showerror(title, message)] *)
Record dialog : Type := showerror_box { box_title : string; box_message : string }.

Inductive outcome (A : Type) : Type :=
| Normal (a : A)        (* control reaches the next statement *)
| Returned              (* a [return] was executed *)
| Raised (e : exn).     (* an exception propagates *)
Arguments Normal {A} a.
Arguments Returned {A}.
Arguments Raised {A} e.

Section Monad.
Variable S : Type.

Definition M (A : Type) : Type := S -> outcome A * S * list dialog.

Definition ret {A} (a : A) : M A := fun s => (Normal a, s, []).

Definition bind {A B} (m : M A) (k : A -> M B) : M B :=
  fun s =>
    match m s with
    | (Normal a, s', shown) =>
        let '(r, s'', shown') := k a s' in (r, s'', shown ++ shown')
    | (Returned, s', shown) => (Returned, s', shown)
    | (Raised e, s', shown) => (Raised e, s', shown)
    end.

Definition get : M S := fun s => (Normal s, s, []).
Definition modify (f : S -> S) : M unit := fun s => (Normal tt, f s, []).
Definition raise {A} (e : exn) : M A := fun s => (Raised e, s, []).
Definition return_ {A} : M A := fun s => (Returned, s, []).

Definition showerror (title message : string) : M unit :=
  fun s => (Normal tt, s, [showerror_box title message]).

(** [try: body except ...: handler e] *)
Definition try_except {A} (body : M A) (handler : exn -> M A) : M A :=
  fun s =>
    match body s with
    | (Raised e, s', shown) =>
        let '(r, s'', shown') := handler e s' in (r, s'', shown ++ shown')
    | other => other
    end.

(** Running a callback from the event loop: the state it leaves, the
    dialogs it showed, and whether an exception escaped it. *)
Definition escaped {A} (r : outcome A) : bool :=
  match r with Raised _ => true | _ => false end.

(** The three components of a finished run. *)
Definition outcome_of {A} (r : outcome A * S * list dialog) : outcome A := fst (fst r).
Definition state_of {A} (r : outcome A * S * list dialog) : S := snd (fst r).
Definition dialogs_of {A} (r : outcome A * S * list dialog) : list dialog := snd r.

End Monad.

Arguments outcome_of {S A} r.
Arguments state_of {S A} r.
Arguments dialogs_of {S A} r.
Arguments escaped {A} r.
Arguments ret {S A} a.
Arguments bind {S A B} m k.
Arguments get {S}.
Arguments modify {S} f.
Arguments raise {S A} e.
Arguments return_ {S A}.
Arguments showerror {S} title message.
Arguments try_except {S A} body handler.

(** The text of an entry field: either it reads as a (finite) number or it
    does not read as a number at all.  Texts that [float()] reads as NaN or an
    infinity are not in this type; see [Binary64.entry]. *)
Inductive entry : Type :=
| Numeric (x : R)
| NotNumeric (s : string).

(** [float(var.get())] *)
Definition float {S} (e : entry) : M S R :=
  match e with
  | Numeric x => ret x
  | NotNumeric s => raise (ValueError "could not convert string to float")
  end.

(** An operation of a library that raises [e] where it returns [None]. *)
Definition of_option {S A} (e : exn) (o : option A) : M S A :=
  match o with Some a => ret a | None => raise e end.

(** The text of a label: a literal, or an f-string around one number. *)
Inductive text : Type :=
| Lit (s : string)
| Fmt (before : string) (value : R) (spec : string) (after : string).

End Py.

Declare Scope py_scope.
Delimit Scope py_scope with py.
Notation "x <- m ;; k" := (Py.bind m (fun x => k))
  (at level 61, m at next level, right associativity) : py_scope.
Notation "m ;; k" := (Py.bind m (fun _ => k))
  (at level 61, right associativity) : py_scope.
Notation "x <=? y" := (Np.Rleb x y) : R_scope.
Notation "x <? y" := (Np.Rltb x y) : R_scope.

Open Scope string_scope.
Open Scope R_scope.

(** ** Python strings *)

Module Str.

(** [c.lower()] on an ASCII letter; every other byte is kept.  (The
    keywords searched for below are ASCII and no non-ASCII letter lowers to
    a run of them, so on the UTF-8 bytes of a name this decides the same
    substring tests as Python's [str.lower].) *)
Definition lower_ascii (c : ascii) : ascii :=
  let n := nat_of_ascii c in
  if (65 <=? n)%nat && (n <=? 90)%nat then ascii_of_nat (n + 32) else c.

Fixpoint lower (s : string) : string :=
  match s with
  | EmptyString => EmptyString
  | String c s' => String (lower_ascii c) (lower s')
  end.

(** [sub in s] *)
Fixpoint contains (sub s : string) : bool :=
  if String.prefix sub s then true
  else match s with
       | EmptyString => false
       | String _ s' => contains sub s'
       end.

(** [not s]: the empty string is falsy. *)
Definition is_empty (s : string) : bool :=
  match s with EmptyString => true | _ => false end.

End Str.

(** ** pandas columns *)

Module Pd.

(** A cell of a loaded CSV column, by what pandas makes of it. *)
Inductive cell : Type :=
| Number (x : R)       (* [pd.to_numeric] reads it as [x] *)
| Timestamp (t : R)    (* not a number; [pd.to_datetime] reads it as the
                          instant [t], in seconds *)
| Text (s : string)    (* neither a number nor a timestamp, for pandas and
                          for [float()] alike *)
| Blank.

Definition DataFrame : Type := list (string * list cell).

(** [df[col]]; a name that is not a column raises KeyError. *)
Fixpoint getitem (df : DataFrame) (col : string) : option (list cell) :=
  match df with
  | [] => None
  | (name, data) :: df' => if String.eqb name col then Some data else getitem df' col
  end.

Definition columns (df : DataFrame) : list string := map fst df.

(** [pd.to_numeric(column, errors='coerce')] *)
Definition to_numeric (column : list cell) : list Np.float :=
  map (fun c => match c with Number x => Np.fin x | _ => Np.nan end) column.

(** [pd.to_datetime(column, errors='coerce')], NaT written [nan].  (The
    callers reach it only for a column without a [Number].) *)
Definition to_datetime (column : list cell) : list Np.float :=
  map (fun c => match c with Timestamp t => Np.fin t | _ => Np.nan end) column.

(** [series.isna().all()] *)
Definition isna_all (a : list Np.float) : bool := forallb Np.isnan a.

(** [series.min()]: the least value that is not NaT; NaT when there is none. *)
Fixpoint min (a : list Np.float) : Np.float :=
  match a with
  | [] => Np.nan
  | Np.nan :: a' => min a'
  | Np.fin x :: a' =>
      match min a' with
      | Np.nan => Np.fin x
      | Np.fin m => Np.fin (Rmin x m)
      end
  end.

(** [series.iloc[::ds]]: every [ds]-th row, from the first. *)
Fixpoint stride_from {A : Type} (skip ds : nat) (l : list A) : list A :=
  match l with
  | [] => []
  | x :: l' =>
      match skip with
      | O => x :: stride_from (ds - 1) ds l'
      | S k => stride_from k ds l'
      end
  end.

Definition iloc_stride {A : Type} (ds : nat) (l : list A) : list A :=
  stride_from 0 ds l.

(** [series.values.astype(float)]: a number stays, a blank is NaN, any other
    text raises ValueError, here [None]. *)
Fixpoint astype_float (column : list cell) : option (list Np.float) :=
  match column with
  | [] => Some []
  | c :: column' =>
      match c, astype_float column' with
      | Number x, Some r => Some (Np.fin x :: r)
      | Blank, Some r => Some (Np.nan :: r)
      | _, _ => None
      end
  end.

(** [(series - series.min()).dt.total_seconds().values] *)
Definition seconds_since_min (a : list Np.float) : list Np.float :=
  map (fun t => Np.sub t (min a)) a.

End Pd.

(** ** [class CdACalculatorWindow] *)

Module CdACalculatorWindow.

Definition LBS_TO_KG : R := 0.453592.
Definition PSI_TO_PA : R := 6894.76.

(** The attributes and widgets of the window that the modelled methods
    read or write. *)
Record window : Type := mk_window {
  df : option Pd.DataFrame;
  time_col : option string;
  pressure_col : option string;
  weight_col : option string;
  start_time : option R;
  end_time : option R;
  calculated_mdot : option R;
  calculated_cda : option R;
  (* combo boxes: the selected text, empty when nothing is selected *)
  time_combo : string;
  pressure_combo : string;
  weight_combo : string;
  (* entry fields of the CdA panel *)
  p_high_var : Py.entry;
  p_low_var : Py.entry;
  rho_var : Py.entry;
  (* entry fields of the set-pressure panel *)
  setpoint_cda_var : Py.entry;
  setpoint_mdot_var : Py.entry;
  setpoint_rho_var : Py.entry;
  manifold_p_var : Py.entry;
  (* result labels *)
  result_label : Py.text;
  result_units : Py.text;
  setpoint_result_label : Py.text;
  setpoint_result_pa : Py.text
}.

Definition set_time (col : string) (w : window) : window :=
  mk_window (df w) (Some col) (pressure_col w) (weight_col w)
    (start_time w) (end_time w) (calculated_mdot w) (calculated_cda w)
    col (pressure_combo w) (weight_combo w)
    (p_high_var w) (p_low_var w) (rho_var w)
    (setpoint_cda_var w) (setpoint_mdot_var w) (setpoint_rho_var w) (manifold_p_var w)
    (result_label w) (result_units w) (setpoint_result_label w) (setpoint_result_pa w).

Definition set_pressure (col : string) (w : window) : window :=
  mk_window (df w) (time_col w) (Some col) (weight_col w)
    (start_time w) (end_time w) (calculated_mdot w) (calculated_cda w)
    (time_combo w) col (weight_combo w)
    (p_high_var w) (p_low_var w) (rho_var w)
    (setpoint_cda_var w) (setpoint_mdot_var w) (setpoint_rho_var w) (manifold_p_var w)
    (result_label w) (result_units w) (setpoint_result_label w) (setpoint_result_pa w).

Definition set_weight (col : string) (w : window) : window :=
  mk_window (df w) (time_col w) (pressure_col w) (Some col)
    (start_time w) (end_time w) (calculated_mdot w) (calculated_cda w)
    (time_combo w) (pressure_combo w) col
    (p_high_var w) (p_low_var w) (rho_var w)
    (setpoint_cda_var w) (setpoint_mdot_var w) (setpoint_rho_var w) (manifold_p_var w)
    (result_label w) (result_units w) (setpoint_result_label w) (setpoint_result_pa w).

Definition set_calculated_cda (cda : R) (w : window) : window :=
  mk_window (df w) (time_col w) (pressure_col w) (weight_col w)
    (start_time w) (end_time w) (calculated_mdot w) (Some cda)
    (time_combo w) (pressure_combo w) (weight_combo w)
    (p_high_var w) (p_low_var w) (rho_var w)
    (setpoint_cda_var w) (setpoint_mdot_var w) (setpoint_rho_var w) (manifold_p_var w)
    (result_label w) (result_units w) (setpoint_result_label w) (setpoint_result_pa w).

Definition set_result_label (t : Py.text) (w : window) : window :=
  mk_window (df w) (time_col w) (pressure_col w) (weight_col w)
    (start_time w) (end_time w) (calculated_mdot w) (calculated_cda w)
    (time_combo w) (pressure_combo w) (weight_combo w)
    (p_high_var w) (p_low_var w) (rho_var w)
    (setpoint_cda_var w) (setpoint_mdot_var w) (setpoint_rho_var w) (manifold_p_var w)
    t (result_units w) (setpoint_result_label w) (setpoint_result_pa w).

Definition set_result_units (t : Py.text) (w : window) : window :=
  mk_window (df w) (time_col w) (pressure_col w) (weight_col w)
    (start_time w) (end_time w) (calculated_mdot w) (calculated_cda w)
    (time_combo w) (pressure_combo w) (weight_combo w)
    (p_high_var w) (p_low_var w) (rho_var w)
    (setpoint_cda_var w) (setpoint_mdot_var w) (setpoint_rho_var w) (manifold_p_var w)
    (result_label w) t (setpoint_result_label w) (setpoint_result_pa w).

Definition set_setpoint_result_label (t : Py.text) (w : window) : window :=
  mk_window (df w) (time_col w) (pressure_col w) (weight_col w)
    (start_time w) (end_time w) (calculated_mdot w) (calculated_cda w)
    (time_combo w) (pressure_combo w) (weight_combo w)
    (p_high_var w) (p_low_var w) (rho_var w)
    (setpoint_cda_var w) (setpoint_mdot_var w) (setpoint_rho_var w) (manifold_p_var w)
    (result_label w) (result_units w) t (setpoint_result_pa w).

Definition set_setpoint_result_pa (t : Py.text) (w : window) : window :=
  mk_window (df w) (time_col w) (pressure_col w) (weight_col w)
    (start_time w) (end_time w) (calculated_mdot w) (calculated_cda w)
    (time_combo w) (pressure_combo w) (weight_combo w)
    (p_high_var w) (p_low_var w) (rho_var w)
    (setpoint_cda_var w) (setpoint_mdot_var w) (setpoint_rho_var w) (manifold_p_var w)
    (result_label w) (result_units w) (setpoint_result_label w) t.

(** The window as [__init__] and [_build_ui] leave it. *)
Definition initial : window :=
  mk_window None None None None None None None None
    "" "" ""
    (Py.NotNumeric "") (Py.Numeric 14.7) (Py.Numeric 1000)
    (Py.NotNumeric "") (Py.NotNumeric "") (Py.Numeric 1000) (Py.Numeric 500)
    (Py.Lit "CdA = --") (Py.Lit "m²") (Py.Lit "P_set = -- PSI") (Py.Lit "-- Pa").

(** The user types into the entry fields of the CdA panel, and a confirmed
    time range stores the derived rate ([_on_time_selection_confirmed]). *)
Definition with_cda_inputs (p_high p_low rho : Py.entry) (mdot : option R)
  (w : window) : window :=
  mk_window (df w) (time_col w) (pressure_col w) (weight_col w)
    (start_time w) (end_time w) mdot (calculated_cda w)
    (time_combo w) (pressure_combo w) (weight_combo w)
    p_high p_low rho
    (setpoint_cda_var w) (setpoint_mdot_var w) (setpoint_rho_var w) (manifold_p_var w)
    (result_label w) (result_units w) (setpoint_result_label w) (setpoint_result_pa w).

(** The user types into the entry fields of the set-pressure panel. *)
Definition with_setpoint_inputs (cda mdot rho manifold_p : Py.entry)
  (w : window) : window :=
  mk_window (df w) (time_col w) (pressure_col w) (weight_col w)
    (start_time w) (end_time w) (calculated_mdot w) (calculated_cda w)
    (time_combo w) (pressure_combo w) (weight_combo w)
    (p_high_var w) (p_low_var w) (rho_var w)
    cda mdot rho manifold_p
    (result_label w) (result_units w) (setpoint_result_label w) (setpoint_result_pa w).

(** *** [_autodetect_columns] *)

Definition is_time (col : string) : bool :=
  let col_lower := Str.lower col in
  Str.contains "time" col_lower || String.eqb col_lower "t".

Definition is_pressure (col : string) : bool :=
  let col_lower := Str.lower col in
  Str.contains "pressure" col_lower || Str.contains "press" col_lower.

Definition is_weight (col : string) : bool :=
  let col_lower := Str.lower col in
  Str.contains "weight" col_lower || Str.contains "mass" col_lower.

(** The body of the [for col in columns] loop. *)
Definition autodetect_step (w : window) (col : string) : window :=
  if is_time col then
    set_time col w
  else if is_pressure col then
    if Str.is_empty (pressure_combo w) then set_pressure col w else w
  else if is_weight col then
    if Str.is_empty (weight_combo w) then set_weight col w else w
  else w.

Definition _autodetect_columns (columns : list string) (w : window) : window :=
  fold_left autodetect_step columns w.

(** *** [_calculate_setpoint] *)

Definition _calculate_setpoint : Py.M window unit :=
  (Py.try_except
     (w <- Py.get ;;
      cda <- Py.float (setpoint_cda_var w) ;;
      mdot <- Py.float (setpoint_mdot_var w) ;;
      rho <- Py.float (setpoint_rho_var w) ;;
      manifold_p_psi <- Py.float (manifold_p_var w) ;;
      if cda <=? 0 then
        Py.showerror "Error" "CdA must be positive." ;; Py.return_
      else if rho <=? 0 then
        Py.showerror "Error" "Density must be positive." ;; Py.return_
      else
        let manifold_p_pa := manifold_p_psi * PSI_TO_PA in
        let delta_p_pa := ((mdot / cda) ^ 2) / (2 * rho) in
        let p_set_pa := delta_p_pa + manifold_p_pa in
        let p_set_psi := p_set_pa / PSI_TO_PA in
        Py.modify (set_setpoint_result_label (Py.Fmt "P_set = " p_set_psi ".1f" " PSI")) ;;
        Py.modify (set_setpoint_result_pa (Py.Fmt "(" p_set_pa ".0f" " Pa)")))
     (fun e =>
        match e with
        | Py.ValueError _ =>
            Py.showerror "Error" "Please enter valid numeric values for all inputs."
        | _ => Py.showerror "Error" "Calculation failed"
        end))%py.

(** *** [_calculate_cda] *)

Definition _calculate_cda : Py.M window unit :=
  (Py.try_except
     (w <- Py.get ;;
      p_high_psi <- Py.float (p_high_var w) ;;
      p_low_psi <- Py.float (p_low_var w) ;;
      rho <- Py.float (rho_var w) ;;
      match calculated_mdot w with
      | None =>
          Py.showerror "Error" "Please select time range to calculate mdot first." ;;
          Py.return_
      | Some mdot =>
          let p_high_pa := p_high_psi * PSI_TO_PA in
          let p_low_pa := p_low_psi * PSI_TO_PA in
          let delta_p := p_high_pa - p_low_pa in
          if delta_p <=? 0 then
            Py.showerror "Error" "P_high must be greater than P_low." ;; Py.return_
          else if rho <=? 0 then
            Py.showerror "Error" "Density must be positive." ;; Py.return_
          else
            let cda := mdot / sqrt (2 * rho * delta_p) in
            Py.modify (set_calculated_cda cda) ;;
            Py.modify (set_result_label (Py.Fmt "CdA = " cda ".8f" "")) ;;
            let cda_mm2 := cda * 1e6 in
            Py.modify (set_result_units (Py.Fmt "m² (" cda_mm2 ".2f" " mm²)"))
      end)
     (fun e =>
        match e with
        | Py.ValueError _ =>
            Py.showerror "Error" "Please enter valid numeric values for all parameters."
        | _ => Py.showerror "Error" "Calculation failed"
        end))%py.

(** *** [_get_numeric_time_data]

    The value returned: [inr None] is Python's [None], [inl e] an exception
    that leaves the method. *)

Definition _get_numeric_time_data (w : window) : Py.exn + option (list Np.float) :=
  match df w, time_col w with
  | None, _ => inl Py.TypeError
  | Some d, None => inl (Py.KeyError "None")
  | Some d, Some col =>
      match Pd.getitem d col with
      | None => inl (Py.KeyError col)
      | Some time_col_data =>
          let time_numeric := Pd.to_numeric time_col_data in
          if Pd.isna_all time_numeric then
            let time_dt := Pd.to_datetime time_col_data in
            if Pd.isna_all time_dt then inr None
            else inr (Some (Pd.seconds_since_min time_dt))
          else inr (Some time_numeric)
      end
  end.

End CdACalculatorWindow.

(** ** [class CdAPlotWindow] *)

Module CdAPlotWindow.

Definition LBS_TO_KG : R := 0.453592.
Definition MAX_PLOT_POINTS : nat := 2000.

(** What was handed to matplotlib: the decimated series, and whether a second
    axes (the weight plot) exists. *)
Record figure : Type := mk_figure {
  time_plot : list Np.float;
  pressure_plot : list Np.float;
  weight_plot : option (list Np.float)
}.

(** The attributes of the window.  A line is kept as the x position it is
    drawn at; [cid] says whether the click handler is connected;
    [confirm_btn] whether the button is enabled. *)
Record window : Type := mk_window {
  df : Pd.DataFrame;
  time_col : string;
  pressure_col : string;
  weight_col : string;
  start_time : option R;
  end_time : option R;
  click_count : nat;
  start_line : option R;
  end_line : option R;
  start_line2 : option R;
  end_line2 : option R;
  fig : option figure;
  ax2 : bool;
  cid : bool;
  time_data_numeric : option (list Np.float);
  start_label : Py.text;
  end_label : Py.text;
  confirm_btn : bool;
  destroyed : bool
}.

Definition set_start_time (v : option R) (w : window) : window :=
  mk_window (df w) (time_col w) (pressure_col w) (weight_col w) v (end_time w)
    (click_count w) (start_line w) (end_line w) (start_line2 w) (end_line2 w)
    (fig w) (ax2 w) (cid w) (time_data_numeric w) (start_label w) (end_label
    w) (confirm_btn w) (destroyed w).

Definition set_end_time (v : option R) (w : window) : window :=
  mk_window (df w) (time_col w) (pressure_col w) (weight_col w) (start_time w)
    v (click_count w) (start_line w) (end_line w) (start_line2 w) (end_line2
    w) (fig w) (ax2 w) (cid w) (time_data_numeric w) (start_label w)
    (end_label w) (confirm_btn w) (destroyed w).

Definition set_click_count (v : nat) (w : window) : window :=
  mk_window (df w) (time_col w) (pressure_col w) (weight_col w) (start_time w)
    (end_time w) v (start_line w) (end_line w) (start_line2 w) (end_line2 w)
    (fig w) (ax2 w) (cid w) (time_data_numeric w) (start_label w) (end_label
    w) (confirm_btn w) (destroyed w).

Definition set_start_line (v : option R) (w : window) : window :=
  mk_window (df w) (time_col w) (pressure_col w) (weight_col w) (start_time w)
    (end_time w) (click_count w) v (end_line w) (start_line2 w) (end_line2 w)
    (fig w) (ax2 w) (cid w) (time_data_numeric w) (start_label w) (end_label
    w) (confirm_btn w) (destroyed w).

Definition set_end_line (v : option R) (w : window) : window :=
  mk_window (df w) (time_col w) (pressure_col w) (weight_col w) (start_time w)
    (end_time w) (click_count w) (start_line w) v (start_line2 w) (end_line2
    w) (fig w) (ax2 w) (cid w) (time_data_numeric w) (start_label w)
    (end_label w) (confirm_btn w) (destroyed w).

Definition set_start_line2 (v : option R) (w : window) : window :=
  mk_window (df w) (time_col w) (pressure_col w) (weight_col w) (start_time w)
    (end_time w) (click_count w) (start_line w) (end_line w) v (end_line2 w)
    (fig w) (ax2 w) (cid w) (time_data_numeric w) (start_label w) (end_label
    w) (confirm_btn w) (destroyed w).

Definition set_end_line2 (v : option R) (w : window) : window :=
  mk_window (df w) (time_col w) (pressure_col w) (weight_col w) (start_time w)
    (end_time w) (click_count w) (start_line w) (end_line w) (start_line2 w) v
    (fig w) (ax2 w) (cid w) (time_data_numeric w) (start_label w) (end_label
    w) (confirm_btn w) (destroyed w).

Definition set_fig (v : option figure) (w : window) : window :=
  mk_window (df w) (time_col w) (pressure_col w) (weight_col w) (start_time w)
    (end_time w) (click_count w) (start_line w) (end_line w) (start_line2 w)
    (end_line2 w) v (ax2 w) (cid w) (time_data_numeric w) (start_label w)
    (end_label w) (confirm_btn w) (destroyed w).

Definition set_ax2 (v : bool) (w : window) : window :=
  mk_window (df w) (time_col w) (pressure_col w) (weight_col w) (start_time w)
    (end_time w) (click_count w) (start_line w) (end_line w) (start_line2 w)
    (end_line2 w) (fig w) v (cid w) (time_data_numeric w) (start_label w)
    (end_label w) (confirm_btn w) (destroyed w).

Definition set_cid (v : bool) (w : window) : window :=
  mk_window (df w) (time_col w) (pressure_col w) (weight_col w) (start_time w)
    (end_time w) (click_count w) (start_line w) (end_line w) (start_line2 w)
    (end_line2 w) (fig w) (ax2 w) v (time_data_numeric w) (start_label w)
    (end_label w) (confirm_btn w) (destroyed w).

Definition set_time_data_numeric (v : option (list Np.float)) (w : window) : window :=
  mk_window (df w) (time_col w) (pressure_col w) (weight_col w) (start_time w)
    (end_time w) (click_count w) (start_line w) (end_line w) (start_line2 w)
    (end_line2 w) (fig w) (ax2 w) (cid w) v (start_label w) (end_label w)
    (confirm_btn w) (destroyed w).

Definition set_start_label (v : Py.text) (w : window) : window :=
  mk_window (df w) (time_col w) (pressure_col w) (weight_col w) (start_time w)
    (end_time w) (click_count w) (start_line w) (end_line w) (start_line2 w)
    (end_line2 w) (fig w) (ax2 w) (cid w) (time_data_numeric w) v (end_label
    w) (confirm_btn w) (destroyed w).

Definition set_end_label (v : Py.text) (w : window) : window :=
  mk_window (df w) (time_col w) (pressure_col w) (weight_col w) (start_time w)
    (end_time w) (click_count w) (start_line w) (end_line w) (start_line2 w)
    (end_line2 w) (fig w) (ax2 w) (cid w) (time_data_numeric w) (start_label
    w) v (confirm_btn w) (destroyed w).

Definition set_confirm_btn (v : bool) (w : window) : window :=
  mk_window (df w) (time_col w) (pressure_col w) (weight_col w) (start_time w)
    (end_time w) (click_count w) (start_line w) (end_line w) (start_line2 w)
    (end_line2 w) (fig w) (ax2 w) (cid w) (time_data_numeric w) (start_label
    w) (end_label w) v (destroyed w).

Definition set_destroyed (v : bool) (w : window) : window :=
  mk_window (df w) (time_col w) (pressure_col w) (weight_col w) (start_time w)
    (end_time w) (click_count w) (start_line w) (end_line w) (start_line2 w)
    (end_line2 w) (fig w) (ax2 w) (cid w) (time_data_numeric w) (start_label
    w) (end_label w) (confirm_btn w) v.

(** A mouse event of matplotlib: the axes under the cursor and the x data. *)
Inductive axes : Type := Ax1 | Ax2 | OtherAxes.

Record MouseEvent : Type := mk_event {
  inaxes : option axes;
  xdata : option R
}.

(** *** [_downsample_data]

    The pair returned, or the exception: [n // max_points] raises
    ZeroDivisionError for [max_points = 0]. *)

Definition _downsample_data {A : Type} (data : list A) (max_points : nat)
  : Py.exn + (list A * list nat) :=
  let n := List.length data in
  if (n <=? max_points)%nat then inr (data, Np.arange n 1)
  else if (max_points =? 0)%nat then inl Py.ZeroDivisionError
  else
    let step := (n / max_points)%nat in
    let indices := Np.arange n step in
    match Np.take_indices data indices with
    | Some picked => inr (picked, indices)
    | None => inl Py.IndexError
    end.

(** *** [_prepare_plot_data] *)

Definition _prepare_plot_data
  : Py.M window (list Np.float * list Np.float * option (list Np.float)) :=
  (w <- Py.get ;;
   time_col_data <- Py.of_option (Py.KeyError (time_col w))
                      (Pd.getitem (df w) (time_col w)) ;;
   let time_numeric := Pd.to_numeric time_col_data in
   time_data <-
     (if Pd.isna_all time_numeric then
        Py.try_except
          (let time_dt := Pd.to_datetime time_col_data in
           if Pd.isna_all time_dt then
             Py.raise (Py.ValueError "Could not parse time column as numeric or datetime")
           else Py.ret (Pd.seconds_since_min time_dt))
          (fun _ => Py.raise (Py.ValueError "Could not parse time column"))
      else Py.ret time_numeric) ;;
   pressure_col_data <- Py.of_option (Py.KeyError (pressure_col w))
                          (Pd.getitem (df w) (pressure_col w)) ;;
   let pressure_data := Pd.to_numeric pressure_col_data in
   Py.modify (set_time_data_numeric (Some time_data)) ;;
   valid_mask <- Py.of_option (Py.ValueError "operands could not be broadcast together")
                   (Np.elementwise (fun t p => negb (Np.isnan t || Np.isnan p))
                      time_data pressure_data) ;;
   time_data <- Py.of_option Py.IndexError (Np.bool_index time_data valid_mask) ;;
   pressure_data <- Py.of_option Py.IndexError (Np.bool_index pressure_data valid_mask) ;;
   if (List.length time_data =? 0)%nat then
     Py.raise (Py.ValueError "No valid data points to plot")
   else
     weight_data <-
       (if negb (Str.is_empty (weight_col w)) then
          weight_col_data <- Py.of_option (Py.KeyError (weight_col w))
                               (Pd.getitem (df w) (weight_col w)) ;;
          weight_data <- Py.of_option Py.IndexError
                           (Np.bool_index (Pd.to_numeric weight_col_data) valid_mask) ;;
          Py.ret (Some weight_data)
        else Py.ret None) ;;
     Py.ret (time_data, pressure_data, weight_data))%py.

(** *** [_cleanup_and_close] *)

Definition _cleanup_and_close : Py.M window unit :=
  (w <- Py.get ;;
   (if cid w && (match fig w with Some _ => true | None => false end) then
      Py.modify (set_cid false)
    else Py.ret tt) ;;
   Py.modify (set_fig None) ;;
   Py.modify (set_destroyed true))%py.

(** *** [_create_plot] *)

Definition _create_plot : Py.M window unit :=
  (Py.try_except
     (data <- _prepare_plot_data ;;
      let '(time_data, pressure_data, weight_data) := data in
      let n_points := List.length time_data in
      plots <-
        (if (MAX_PLOT_POINTS <? n_points)%nat then
           let step := Nat.max 1 (n_points / MAX_PLOT_POINTS) in
           let plot_indices := Np.arange n_points step in
           time_plot <- Py.of_option Py.IndexError (Np.take_indices time_data plot_indices) ;;
           pressure_plot <- Py.of_option Py.IndexError
                              (Np.take_indices pressure_data plot_indices) ;;
           weight_plot <-
             match weight_data with
             | Some weight_data =>
                 weight_plot <- Py.of_option Py.IndexError
                                  (Np.take_indices weight_data plot_indices) ;;
                 Py.ret (Some weight_plot)
             | None => Py.ret None
             end ;;
           Py.ret (time_plot, pressure_plot, weight_plot)
         else Py.ret (time_data, pressure_data, weight_data)) ;;
      let '(time_plot, pressure_plot, weight_plot) := plots in
      w <- Py.get ;;
      let two := negb (Str.is_empty (weight_col w))
                 && (match weight_data with Some _ => true | None => false end) in
      Py.modify (set_ax2 two) ;;
      Py.modify (set_fig (Some (mk_figure time_plot pressure_plot
                                  (if two then weight_plot else None)))) ;;
      Py.modify (set_cid true))
     (fun e =>
        Py.showerror "Plot Error" "Failed to create plot" ;;
        _cleanup_and_close))%py.

(** *** [_remove_lines], [_reset_selection] *)

Definition _remove_lines : Py.M window unit :=
  (Py.modify (set_start_line None) ;;
   Py.modify (set_end_line None) ;;
   Py.modify (set_start_line2 None) ;;
   Py.modify (set_end_line2 None))%py.

Definition _reset_selection : Py.M window unit :=
  (Py.modify (set_start_time None) ;;
   Py.modify (set_end_time None) ;;
   Py.modify (set_click_count 0) ;;
   Py.modify (set_start_label (Py.Lit "Click on plot...")) ;;
   Py.modify (set_end_label (Py.Lit "--")) ;;
   Py.modify (set_confirm_btn false) ;;
   _remove_lines)%py.

(** *** [_on_plot_click] *)

Definition _on_plot_click (event : MouseEvent) : Py.M window unit :=
  (w <- Py.get ;;
   (if ax2 w then
      match inaxes event with
      | Some Ax1 | Some Ax2 => Py.ret tt
      | _ => Py.return_
      end
    else
      match inaxes event with
      | Some Ax1 => Py.ret tt
      | _ => Py.return_
      end) ;;
   match xdata event with
   | None => Py.return_
   | Some x_click =>
       Py.modify (fun w => set_click_count (click_count w + 1) w) ;;
       w <- Py.get ;;
       if (click_count w =? 1)%nat then
         Py.modify (set_start_time (Some x_click)) ;;
         Py.modify (set_start_label (Py.Fmt "" x_click ".3f" " s")) ;;
         Py.modify (set_end_time None) ;;
         Py.modify (set_end_label (Py.Lit "--")) ;;
         Py.modify (set_confirm_btn false) ;;
         _remove_lines ;;
         Py.modify (set_start_line (Some x_click)) ;;
         (if ax2 w then Py.modify (set_start_line2 (Some x_click)) else Py.ret tt)
       else if (click_count w =? 2)%nat then
         Py.modify (set_end_time (Some x_click)) ;;
         (match start_time w with
          | None => Py.raise Py.TypeError   (* [x < None] *)
          | Some start =>
              if x_click <? start then
                Py.modify (set_start_time (Some x_click)) ;;
                Py.modify (set_end_time (Some start))
              else Py.ret tt
          end) ;;
         w <- Py.get ;;
         match start_time w, end_time w with
         | Some start, Some end_ =>
             Py.modify (set_start_label (Py.Fmt "" start ".3f" " s")) ;;
             Py.modify (set_end_label (Py.Fmt "" end_ ".3f" " s")) ;;
             (match start_line w with
              | Some _ => Py.modify (set_start_line (Some start))
              | None => Py.ret tt
              end) ;;
             (match start_line2 w with
              | Some _ => Py.modify (set_start_line2 (Some start))
              | None => Py.ret tt
              end) ;;
             Py.modify (set_end_line (Some end_)) ;;
             (if ax2 w then Py.modify (set_end_line2 (Some end_)) else Py.ret tt) ;;
             Py.modify (set_confirm_btn true) ;;
             Py.modify (set_click_count 0)
         | _, _ => Py.raise Py.TypeError
         end
       else Py.ret tt
   end)%py.

(** *** [_calculate_mdot]

    [None] is Python's [None]; the body is wrapped in
    [try: ... except Exception: return None], so every raise is a [None]. *)

Section CalculateMdot.
Variable lstsq_rank_deficient : list R -> list R -> option (R * R).

Definition _calculate_mdot (w : window) : option R :=
  match start_time w, end_time w with
  | Some start, Some end_ =>
      if Str.is_empty (weight_col w) then None
      else
        match time_data_numeric w with
        | None => None
        | Some time_data =>
            match Pd.getitem (df w) (weight_col w) with
            | None => None
            | Some weight_col_data =>
                let weight_data := Pd.to_numeric weight_col_data in
                let mask := map (fun t => Np.ge t start && Np.le t end_) time_data in
                if negb (Np.any mask) || (Np.count mask <? 2)%nat then None
                else
                  match Np.bool_index time_data mask, Np.bool_index weight_data mask with
                  | Some t_slice, Some w_slice =>
                      match Np.elementwise
                              (fun t w => negb (Np.isnan t || Np.isnan w))
                              t_slice w_slice with
                      | None => None
                      | Some valid =>
                          match Np.bool_index t_slice valid, Np.bool_index w_slice valid with
                          | Some t_slice, Some w_slice =>
                              if (List.length t_slice <? 2)%nat then None
                              else
                                match Np.polyfit1 lstsq_rank_deficient t_slice w_slice with
                                | None => None
                                | Some (slope, _) =>
                                    let mdot_lbs := - slope in
                                    let mdot_kg := mdot_lbs * LBS_TO_KG in
                                    Some mdot_kg
                                end
                          | _, _ => None
                          end
                      end
                  | _, _ => None
                  end
            end
        end
  | _, _ => None
  end.

(** *** [_on_confirm]: the triple handed to the callback, if any. *)


End CalculateMdot.

End CdAPlotWindow.

(** ** [class VenturiMdotWindow] *)

Module VenturiMdotWindow.

Definition PSI_TO_PA : R := 6894.76.
Definition IN2_TO_M2 : R := 0.00064516.

(** The plot and the statistics line the window shows after a calculation. *)
Record plot : Type := mk_plot {
  plot_time : list Pd.cell;
  plot_mdot : list Np.float
}.

Inductive label : Type :=
| Prompt
| Statistics (avg_mdot_overall max_mdot : Np.float).

(** The attributes of the window that [_calculate_and_plot] reads or writes;
    [ctx_df], [ctx_time_col] and [downsampling_slider] belong to the
    application the window was opened from. *)
Record window : Type := mk_window {
  ctx_df : Pd.DataFrame;
  ctx_time_col : string;
  downsampling_slider : nat;
  p1_col_var : string;
  p2_col_var : string;
  a1_var : Py.entry;
  a2_var : Py.entry;
  cd_var : Py.entry;
  y_var : Py.entry;
  rho_var : Py.entry;
  plot_frame : option plot;
  result_label : label
}.

Definition set_plot_frame (v : option plot) (w : window) : window :=
  mk_window (ctx_df w) (ctx_time_col w) (downsampling_slider w)
    (p1_col_var w) (p2_col_var w) (a1_var w) (a2_var w) (cd_var w) (y_var w)
    (rho_var w) v (result_label w).

Definition set_result_label (v : label) (w : window) : window :=
  mk_window (ctx_df w) (ctx_time_col w) (downsampling_slider w)
    (p1_col_var w) (p2_col_var w) (a1_var w) (a2_var w) (cd_var w) (y_var w)
    (rho_var w) (plot_frame w) v.

(** [np.nanmean(a)]: NaN for an array without a number. *)
Definition nanmean (a : list Np.float) : Np.float :=
  match Np.reals a with
  | [] => Np.nan
  | xs => Np.fin (Np.sum xs / INR (List.length xs))
  end.

(** [np.nanmax(a)]: raises ValueError on an empty array, here [None]. *)
Fixpoint Rmax_list (xs : list R) : R :=
  match xs with
  | [] => 0
  | [x] => x
  | x :: xs' => Rmax x (Rmax_list xs')
  end.

Definition nanmax (a : list Np.float) : option Np.float :=
  match a with
  | [] => None
  | _ => match Np.reals a with
         | [] => Some Np.nan
         | xs => Some (Np.fin (Rmax_list xs))
         end
  end.

Section CalculateAndPlot.
(** [utils.apply_extra_data(app)]: the row mask of the application, from a
    module that is not part of these sources. *)
Variable apply_extra_data : window -> list bool.

(** [df[col][mask].iloc[::ds].values] *)
Definition masked (w : window) (col : string) (mask : list bool) (ds : nat)
  : Py.M window (list Pd.cell) :=
  (data <- Py.of_option (Py.KeyError col) (Pd.getitem (ctx_df w) col) ;;
   data <- Py.of_option Py.IndexError (Np.bool_index data mask) ;;
   Py.ret (Pd.iloc_stride ds data))%py.

Definition _calculate_and_plot : Py.M window unit :=
  (Py.try_except
     (w <- Py.get ;;
      let p1_col := p1_col_var w in
      let p2_col := p2_col_var w in
      if Str.is_empty p1_col || Str.is_empty p2_col then
        Py.showerror "Error" "Please select both P1 and P2 pressure columns." ;;
        Py.return_
      else
        a1_in2 <- Py.float (a1_var w) ;;
        a2_in2 <- Py.float (a2_var w) ;;
        cd <- Py.float (cd_var w) ;;
        y <- Py.float (y_var w) ;;
        rho <- Py.float (rho_var w) ;;
        if (a1_in2 <=? 0) || (a2_in2 <=? 0) then
          Py.showerror "Error" "Areas must be positive values." ;; Py.return_
        else if a1_in2 <=? a2_in2 then
          Py.showerror "Error" "A₂ (throat) must be smaller than A₁ (upstream)." ;;
          Py.return_
        else if (cd <=? 0) || (1 <? cd) then
          Py.showerror "Error" "Discharge coefficient must be between 0 and 1." ;;
          Py.return_
        else
          let a1 := a1_in2 * IN2_TO_M2 in
          let a2 := a2_in2 * IN2_TO_M2 in
          let mask := apply_extra_data w in
          let ds := Nat.max (downsampling_slider w) 1 in
          time <- masked w (ctx_time_col w) mask ds ;;
          p1_cells <- masked w p1_col mask ds ;;
          p1_psi <- Py.of_option (Py.ValueError "could not convert string to float")
                      (Pd.astype_float p1_cells) ;;
          p2_cells <- masked w p2_col mask ds ;;
          p2_psi <- Py.of_option (Py.ValueError "could not convert string to float")
                      (Pd.astype_float p2_cells) ;;
          let p1_pa := map (Np.scale PSI_TO_PA) p1_psi in
          let p2_pa := map (Np.scale PSI_TO_PA) p2_psi in
          delta_p <- Py.of_option (Py.ValueError "operands could not be broadcast together")
                       (Np.elementwise Np.sub p1_pa p2_pa) ;;
          let delta_p := map (fun d => Np.maximum d 0) delta_p in
          let beta_sq := (a2 / a1) ^ 2 in
          let denominator := 1 - beta_sq in
          let mdot :=
            map (fun d =>
                   Np.lift1 (fun r => cd * y * a2 * r)
                     (Np.sqrt (Np.lift1 (fun d => 2 * rho * d / denominator) d)))
                delta_p in
          let mdot := map Np.nan_to_num mdot in
          Py.modify (set_plot_frame None) ;;
          Py.modify (set_plot_frame (Some (mk_plot time mdot))) ;;
          let avg_mdot_overall := nanmean (filter (fun m => Np.gt m 0) mdot) in
          max_mdot <- Py.of_option
                        (Py.ValueError "zero-size array to reduction operation")
                        (nanmax mdot) ;;
          Py.modify (set_result_label (Statistics avg_mdot_overall max_mdot)))
     (fun e =>
        match e with
        | Py.ValueError _ => Py.showerror "Input Error" "Invalid input value"
        | _ => Py.showerror "Error" "Calculation failed"
        end))%py.

End CalculateAndPlot.

End VenturiMdotWindow.

(** ** The calculator handlers over binary64

    [_calculate_setpoint] and [_calculate_cda] once more, with Python's
    floats as IEEE 754 binary64 numbers: the entry texts that [float()]
    accepts include "nan" and "inf", comparisons with NaN are false, and
    [**] raises OverflowError when a finite square overflows.  [x ** 2] is
    taken as the correctly rounded square. *)

Module Binary64.

Definition PSI_TO_PA : PrimFloat.float := 6894.76%float.

(** The text of an entry field: [float()] reads it as a binary64 number
    (NaN and the infinities included) or raises ValueError. *)
Inductive entry : Type :=
| Reads (x : PrimFloat.float)
| NotNumeric (s : string).

(** [float(var.get())] *)
Definition float {S} (e : entry) : Py.M S PrimFloat.float :=
  match e with
  | Reads x => Py.ret x
  | NotNumeric s => Py.raise (Py.ValueError "could not convert string to float")
  end.

(** [a / b] on Python floats: division by zero raises. *)
Definition truediv {S} (a b : PrimFloat.float) : Py.M S PrimFloat.float :=
  if PrimFloat.eqb b 0%float then Py.raise Py.ZeroDivisionError
  else Py.ret (PrimFloat.div a b).

(** [x ** 2] on a Python float: a finite [x] whose square is infinite
    raises OverflowError. *)
Definition square {S} (x : PrimFloat.float) : Py.M S PrimFloat.float :=
  let r := PrimFloat.mul x x in
  if PrimFloat.is_infinity r && negb (PrimFloat.is_infinity x)
  then Py.raise Py.OverflowError
  else Py.ret r.

(** The text of a label: a literal, or an f-string around one number. *)
Inductive text : Type :=
| Lit (s : string)
| Fmt (before : string) (value : PrimFloat.float) (spec : string) (after : string).

(** The attributes and widgets of [CdACalculatorWindow] that the two
    handlers read or write. *)
Record window : Type := mk_window {
  calculated_mdot : option PrimFloat.float;
  calculated_cda : option PrimFloat.float;
  p_high_var : entry;
  p_low_var : entry;
  rho_var : entry;
  setpoint_cda_var : entry;
  setpoint_mdot_var : entry;
  setpoint_rho_var : entry;
  manifold_p_var : entry;
  result_label : text;
  result_units : text;
  setpoint_result_label : text;
  setpoint_result_pa : text
}.

Definition set_calculated_cda (cda : PrimFloat.float) (w : window) : window :=
  mk_window (calculated_mdot w) (Some cda)
    (p_high_var w) (p_low_var w) (rho_var w)
    (setpoint_cda_var w) (setpoint_mdot_var w) (setpoint_rho_var w) (manifold_p_var w)
    (result_label w) (result_units w) (setpoint_result_label w) (setpoint_result_pa w).

Definition set_result_label (t : text) (w : window) : window :=
  mk_window (calculated_mdot w) (calculated_cda w)
    (p_high_var w) (p_low_var w) (rho_var w)
    (setpoint_cda_var w) (setpoint_mdot_var w) (setpoint_rho_var w) (manifold_p_var w)
    t (result_units w) (setpoint_result_label w) (setpoint_result_pa w).

Definition set_result_units (t : text) (w : window) : window :=
  mk_window (calculated_mdot w) (calculated_cda w)
    (p_high_var w) (p_low_var w) (rho_var w)
    (setpoint_cda_var w) (setpoint_mdot_var w) (setpoint_rho_var w) (manifold_p_var w)
    (result_label w) t (setpoint_result_label w) (setpoint_result_pa w).

Definition set_setpoint_result_label (t : text) (w : window) : window :=
  mk_window (calculated_mdot w) (calculated_cda w)
    (p_high_var w) (p_low_var w) (rho_var w)
    (setpoint_cda_var w) (setpoint_mdot_var w) (setpoint_rho_var w) (manifold_p_var w)
    (result_label w) (result_units w) t (setpoint_result_pa w).

Definition set_setpoint_result_pa (t : text) (w : window) : window :=
  mk_window (calculated_mdot w) (calculated_cda w)
    (p_high_var w) (p_low_var w) (rho_var w)
    (setpoint_cda_var w) (setpoint_mdot_var w) (setpoint_rho_var w) (manifold_p_var w)
    (result_label w) (result_units w) (setpoint_result_label w) t.

(** The window as [__init__] and [_build_ui] leave it. *)
Definition initial : window :=
  mk_window None None
    (NotNumeric "") (Reads 14.7%float) (Reads 1000%float)
    (NotNumeric "") (NotNumeric "") (Reads 1000%float) (Reads 500%float)
    (Lit "CdA = --") (Lit "m²") (Lit "P_set = -- PSI") (Lit "-- Pa").

(** The user types into the entry fields of the CdA panel, and a confirmed
    time range stores the derived rate. *)
Definition with_cda_inputs (p_high p_low rho : entry) (mdot : option PrimFloat.float)
  (w : window) : window :=
  mk_window mdot (calculated_cda w) p_high p_low rho
    (setpoint_cda_var w) (setpoint_mdot_var w) (setpoint_rho_var w) (manifold_p_var w)
    (result_label w) (result_units w) (setpoint_result_label w) (setpoint_result_pa w).

(** The user types into the entry fields of the set-pressure panel. *)
Definition with_setpoint_inputs (cda mdot rho manifold_p : entry) (w : window)
  : window :=
  mk_window (calculated_mdot w) (calculated_cda w)
    (p_high_var w) (p_low_var w) (rho_var w)
    cda mdot rho manifold_p
    (result_label w) (result_units w) (setpoint_result_label w) (setpoint_result_pa w).

(** *** [_calculate_setpoint] *)

Definition _calculate_setpoint : Py.M window unit :=
  (Py.try_except
     (w <- Py.get ;;
      cda <- float (setpoint_cda_var w) ;;
      mdot <- float (setpoint_mdot_var w) ;;
      rho <- float (setpoint_rho_var w) ;;
      manifold_p_psi <- float (manifold_p_var w) ;;
      if PrimFloat.leb cda 0%float then
        Py.showerror "Error" "CdA must be positive." ;; Py.return_
      else if PrimFloat.leb rho 0%float then
        Py.showerror "Error" "Density must be positive." ;; Py.return_
      else
        let manifold_p_pa := PrimFloat.mul manifold_p_psi PSI_TO_PA in
        q <- truediv mdot cda ;;
        q2 <- square q ;;
        delta_p_pa <- truediv q2 (PrimFloat.mul 2%float rho) ;;
        let p_set_pa := PrimFloat.add delta_p_pa manifold_p_pa in
        p_set_psi <- truediv p_set_pa PSI_TO_PA ;;
        Py.modify (set_setpoint_result_label (Fmt "P_set = " p_set_psi ".1f" " PSI")) ;;
        Py.modify (set_setpoint_result_pa (Fmt "(" p_set_pa ".0f" " Pa)")))
     (fun e =>
        match e with
        | Py.ValueError _ =>
            Py.showerror "Error" "Please enter valid numeric values for all inputs."
        | _ => Py.showerror "Error" "Calculation failed"
        end))%py.

(** *** [_calculate_cda]

    [mdot / np.sqrt(...)] is a numpy division: it does not raise. *)

Definition _calculate_cda : Py.M window unit :=
  (Py.try_except
     (w <- Py.get ;;
      p_high_psi <- float (p_high_var w) ;;
      p_low_psi <- float (p_low_var w) ;;
      rho <- float (rho_var w) ;;
      match calculated_mdot w with
      | None =>
          Py.showerror "Error" "Please select time range to calculate mdot first." ;;
          Py.return_
      | Some mdot =>
          let p_high_pa := PrimFloat.mul p_high_psi PSI_TO_PA in
          let p_low_pa := PrimFloat.mul p_low_psi PSI_TO_PA in
          let delta_p := PrimFloat.sub p_high_pa p_low_pa in
          if PrimFloat.leb delta_p 0%float then
            Py.showerror "Error" "P_high must be greater than P_low." ;; Py.return_
          else if PrimFloat.leb rho 0%float then
            Py.showerror "Error" "Density must be positive." ;; Py.return_
          else
            let cda :=
              PrimFloat.div mdot
                (PrimFloat.sqrt (PrimFloat.mul (PrimFloat.mul 2%float rho) delta_p)) in
            Py.modify (set_calculated_cda cda) ;;
            Py.modify (set_result_label (Fmt "CdA = " cda ".8f" "")) ;;
            let cda_mm2 := PrimFloat.mul cda 1e6%float in
            Py.modify (set_result_units (Fmt "m² (" cda_mm2 ".2f" " mm²)"))
      end)
     (fun e =>
        match e with
        | Py.ValueError _ =>
            Py.showerror "Error" "Please enter valid numeric values for all parameters."
        | _ => Py.showerror "Error" "Calculation failed"
        end))%py.

(** The number a label shows, if it shows one. *)
Definition shown (t : text) : option PrimFloat.float :=
  match t with
  | Lit _ => None
  | Fmt _ value _ _ => Some value
  end.

(** A density entry that reads as NaN, beside the defaults of the panel
    and a stored rate. *)
Definition nan_density : window :=
  with_cda_inputs (Reads 500%float) (Reads 14.7%float) (Reads PrimFloat.nan)
    (Some 0.5%float) initial.

(** A CdA entry that reads as NaN in the set-pressure panel. *)
Definition nan_cda : window :=
  with_setpoint_inputs (Reads PrimFloat.nan) (Reads 0.5%float) (Reads 1000%float)
    (Reads 500%float) initial.



(** A target rate whose square overflows. *)
Definition huge_rate : window :=
  with_setpoint_inputs (Reads 1%float) (Reads 1e200%float) (Reads 1000%float)
    (Reads 500%float) initial.

End Binary64.

(** ** Auxiliary definitions of the statements *)

Ltac py_unfold :=
  unfold Py.try_except, Py.bind, Py.get, Py.float, Py.ret, Py.raise, Py.return_,
         Py.showerror, Py.modify, Py.of_option.

Ltac py_eval :=
  cbv beta iota zeta
      delta [Py.try_except Py.bind Py.get Py.float Py.ret Py.raise Py.return_
             Py.showerror Py.modify Py.of_option].

Ltac destruct_scrutinee :=
  match goal with
  | |- context [match ?x with _ => _ end] =>
      lazymatch x with
      | context [match _ with _ => _ end] => fail
      | _ => destruct x eqn:?
      end
  end.

Ltac run_simpl :=
  unfold Py.state_of, Py.outcome_of, Py.dialogs_of; cbn [fst snd].

Module CdASpec.
Import CdACalculatorWindow.

(** The pressure drop [_calculate_cda] derives from its two pressures. *)
Definition delta_p_of (p_high_psi p_low_psi : R) : R :=
  p_high_psi * PSI_TO_PA - p_low_psi * PSI_TO_PA.

(** The window after a successful [_calculate_cda] that found [cda]. *)
Definition shows_cda (cda : R) (w : window) : window :=
  set_result_units (Py.Fmt "m² (" (cda * 1e6) ".2f" " mm²)")
    (set_result_label (Py.Fmt "CdA = " cda ".8f" "")
       (set_calculated_cda cda w)).

(** The worked example of the specification: 500 PSI against 14.7 PSI,
    water, 0.5 kg/s. *)
Definition example_window : window :=
  with_cda_inputs (Py.Numeric 500) (Py.Numeric 14.7) (Py.Numeric 1000) (Some 0.5)
    initial.

(** The window after a successful [_calculate_setpoint]. *)
Definition shows_setpoint (p_set_psi p_set_pa : R) (w : window) : window :=
  set_setpoint_result_pa (Py.Fmt "(" p_set_pa ".0f" " Pa)")
    (set_setpoint_result_label (Py.Fmt "P_set = " p_set_psi ".1f" " PSI") w).

(** The second worked example: the set pressure for 0.5 kg/s of water
    through CdA = 1.934e-4 m² into a 50 PSI manifold. *)
Definition example_setpoint_window : window :=
  with_setpoint_inputs (Py.Numeric 1.934e-4) (Py.Numeric 0.5) (Py.Numeric 1000)
    (Py.Numeric 50) initial.

End CdASpec.

Module AutodetectSpec.
Import CdACalculatorWindow.

(** The last element of a list that satisfies [f]. *)
Fixpoint last_match {A : Type} (f : A -> bool) (l : list A) : option A :=
  match l with
  | [] => None
  | x :: l' =>
      match last_match f l' with
      | Some y => Some y
      | None => if f x then Some x else None
      end
  end.

(** A pressure candidate that the detector reaches: the time test comes
    first in the chain and keeps the column. *)
Definition pressure_only (col : string) : bool :=
  is_pressure col && negb (is_time col).

(** A weight candidate that the detector reaches: neither the time test nor
    the pressure test kept the column. *)
Definition weight_only (col : string) : bool :=
  is_weight col && negb (is_time col) && negb (is_pressure col).

(** Column names where one name matches two categories. *)
Definition overlapping_columns : list string :=
  ["Press Time"; "Tank Pressure"; "Mass Pressure"; "Tank Mass"].

End AutodetectSpec.

Module SelectorSpec.
Import CdAPlotWindow.

(** The window as [__init__] leaves it before the plot is created. *)
Definition fresh (df : Pd.DataFrame) (time_col pressure_col weight_col : string)
  : window :=
  mk_window df time_col pressure_col weight_col
    None None 0 None None None None None false false None
    (Py.Lit "Click on plot...") (Py.Lit "--") false false.

(** What the user can do to the selector. *)
Inductive action : Type :=
| Click (event : MouseEvent)
| Reset.

Definition perform (a : action) (w : window) : window :=
  match a with
  | Click event => Py.state_of (_on_plot_click event w)
  | Reset => Py.state_of (_reset_selection w)
  end.

Definition run (actions : list action) (w : window) : window :=
  fold_left (fun w a => perform a w) actions w.

(** A click that the handler does not ignore: inside the pressure axes, or
    inside the weight axes when they exist, with an x value. *)
Definition delivered (w : window) (event : MouseEvent) (x : R) : Prop :=
  (inaxes event = Some Ax1 \/ (ax2 w = true /\ inaxes event = Some Ax2)) /\
  xdata event = Some x.

(** The selection is ordered when both ends are stored. *)
Definition ordered (w : window) : Prop :=
  forall s e : R, start_time w = Some s -> end_time w = Some e -> s <= e.

(** What holds of the selection between two callbacks. *)
Definition selection_inv (w : window) : Prop :=
  (click_count w = 0%nat \/
   (click_count w = 1%nat /\ exists s : R, start_time w = Some s)) /\
  ordered w.

(** The window after the first click of a pair, at [x]. *)
Definition after_first_click (x : R) (w : window) : window :=
  let w := set_click_count (click_count w + 1) w in
  let w := set_start_time (Some x) w in
  let w := set_start_label (Py.Fmt "" x ".3f" " s") w in
  let w := set_end_time None w in
  let w := set_end_label (Py.Lit "--") w in
  let w := set_confirm_btn false w in
  let w := set_end_line2 None (set_start_line2 None
             (set_end_line None (set_start_line None w))) in
  let w := set_start_line (Some x) w in
  if ax2 w then set_start_line2 (Some x) w else w.

(** A table of two rows and a selector on it. *)
Definition two_rows : Pd.DataFrame :=
  [("Time", [Pd.Number 0; Pd.Number 1]);
   ("Pressure", [Pd.Number 500; Pd.Number 480]);
   ("Weight", [Pd.Number 10; Pd.Number 8])].

Definition click_at (x : R) : MouseEvent := mk_event (Some Ax1) (Some x).

End SelectorSpec.

Module TimeSpec.

(** The specification's wording: elapsed seconds measured from the first
    timestamp of the column. *)
Definition seconds_since_first (a : list Np.float) : list Np.float :=
  map (fun t => Np.sub t (hd Np.nan a)) a.

(** The calculator window with a loaded table and a selected time column. *)
Definition with_table (df : Pd.DataFrame) (time_col : string)
  (w : CdACalculatorWindow.window) : CdACalculatorWindow.window :=
  CdACalculatorWindow.mk_window (Some df) (Some time_col)
    (CdACalculatorWindow.pressure_col w) (CdACalculatorWindow.weight_col w)
    (CdACalculatorWindow.start_time w) (CdACalculatorWindow.end_time w)
    (CdACalculatorWindow.calculated_mdot w) (CdACalculatorWindow.calculated_cda w)
    time_col (CdACalculatorWindow.pressure_combo w) (CdACalculatorWindow.weight_combo w)
    (CdACalculatorWindow.p_high_var w) (CdACalculatorWindow.p_low_var w)
    (CdACalculatorWindow.rho_var w)
    (CdACalculatorWindow.setpoint_cda_var w) (CdACalculatorWindow.setpoint_mdot_var w)
    (CdACalculatorWindow.setpoint_rho_var w) (CdACalculatorWindow.manifold_p_var w)
    (CdACalculatorWindow.result_label w) (CdACalculatorWindow.result_units w)
    (CdACalculatorWindow.setpoint_result_label w)
    (CdACalculatorWindow.setpoint_result_pa w).

(** A log whose rows are not in time order: the first row was stamped ten
    seconds, the second five seconds after some instant. *)
Definition unsorted_stamps : Pd.DataFrame :=
  [("Timestamp", [Pd.Timestamp 10; Pd.Timestamp 5]);
   ("Pressure", [Pd.Number 500; Pd.Number 480])].

(** A time column that is neither numeric nor a timestamp. *)
Definition unreadable_times : Pd.DataFrame :=
  [("Time", [Pd.Text "start"; Pd.Blank]);
   ("Pressure", [Pd.Number 500; Pd.Number 480])].

End TimeSpec.

Module VenturiSpec.
Import VenturiMdotWindow.

(** The venturi equation of the specification for one sample: areas in
    square inches, pressures in PSI, a negative pressure difference taken
    as 0. *)
Definition venturi_formula (cd y a1_in2 a2_in2 rho p1_psi p2_psi : R) : R :=
  let a1 := a1_in2 * 0.00064516 in
  let a2 := a2_in2 * 0.00064516 in
  let delta_p := Rmax ((p1_psi - p2_psi) * 6894.76) 0 in
  cd * y * a2 * sqrt (2 * rho * delta_p / (1 - (a2 / a1) ^ 2)).

(** One cell of the plotted series: the equation for a sample with both
    pressures, 0 for a sample where one is missing. *)
Definition sample_mdot (cd y a1_in2 a2_in2 rho : R) (p1 p2 : Np.float) : Np.float :=
  match p1, p2 with
  | Np.fin p1_psi, Np.fin p2_psi =>
      Np.fin (venturi_formula cd y a1_in2 a2_in2 rho p1_psi p2_psi)
  | _, _ => Np.fin 0
  end.

(** [df[col][mask].iloc[::ds].values] as a value. *)
Definition series (w : window) (col : string) (mask : list bool) (ds : nat)
  : option (list Pd.cell) :=
  match Pd.getitem (ctx_df w) col with
  | None => None
  | Some data =>
      match Np.bool_index data mask with
      | None => None
      | Some data => Some (Pd.iloc_stride ds data)
      end
  end.

(** The golden example of the specification, as a one-row table. *)
Definition golden : window :=
  mk_window
    [("t", [Pd.Number 0]); ("P1", [Pd.Number 100]); ("P2", [Pd.Number 80])]
    "t" 1 "P1" "P2"
    (Py.Numeric 0.5) (Py.Numeric 0.25) (Py.Numeric 0.98) (Py.Numeric 1)
    (Py.Numeric 1141) None Prompt.

Definition all_rows (w : window) : list bool := [true].

End VenturiSpec.

Module AtomicitySpec.

(** The inputs a calculation accepts: every entry reads as a number and the
    validity constraints that the handler tests hold. *)
Definition valid_cda_inputs (w : CdACalculatorWindow.window) : Prop :=
  exists p_high p_low rho : R,
    CdACalculatorWindow.p_high_var w = Py.Numeric p_high /\
    CdACalculatorWindow.p_low_var w = Py.Numeric p_low /\
    CdACalculatorWindow.rho_var w = Py.Numeric rho /\
    p_low < p_high /\ 0 < rho.

Definition valid_setpoint_inputs (w : CdACalculatorWindow.window) : Prop :=
  exists cda mdot rho manifold : R,
    CdACalculatorWindow.setpoint_cda_var w = Py.Numeric cda /\
    CdACalculatorWindow.setpoint_mdot_var w = Py.Numeric mdot /\
    CdACalculatorWindow.setpoint_rho_var w = Py.Numeric rho /\
    CdACalculatorWindow.manifold_p_var w = Py.Numeric manifold /\
    0 < cda /\ 0 < rho.

Definition valid_venturi_inputs (w : VenturiMdotWindow.window) : Prop :=
  exists a1 a2 cd y rho : R,
    VenturiMdotWindow.a1_var w = Py.Numeric a1 /\
    VenturiMdotWindow.a2_var w = Py.Numeric a2 /\
    VenturiMdotWindow.cd_var w = Py.Numeric cd /\
    VenturiMdotWindow.y_var w = Py.Numeric y /\
    VenturiMdotWindow.rho_var w = Py.Numeric rho /\
    0 < a2 < a1 /\ 0 < cd <= 1.

(** A run that aborted: the window is the one from before, exactly one
    message box was shown, and no exception left the callback. *)
Definition aborted {S : Type} (w : S) (r : Py.outcome unit * S * list Py.dialog) : Prop :=
  Py.state_of r = w /\
  (exists d : Py.dialog, Py.dialogs_of r = [d]) /\
  Py.escaped (Py.outcome_of r) = false.

(** A CdA panel with a stored result and a non-numeric density. *)
Definition stale_window : CdACalculatorWindow.window :=
  CdACalculatorWindow.with_cda_inputs
    (Py.Numeric 500) (Py.Numeric 14.7) (Py.NotNumeric "water") (Some 0.5)
    (CdACalculatorWindow.set_calculated_cda 6e-6 CdACalculatorWindow.initial).

End AtomicitySpec.

Module RateSpec.
Import CdAPlotWindow.

(** The samples the specification fits: rows whose time and weight are both
    numbers and whose time lies in [start, end], in table order. *)
Fixpoint valid_samples (start end_ : R) (rows : list (Np.float * Np.float))
  : list (R * R) :=
  match rows with
  | [] => []
  | (Np.fin t, Np.fin wt) :: rows' =>
      if (start <=? t) && (t <=? end_)
      then (t, wt) :: valid_samples start end_ rows'
      else valid_samples start end_ rows'
  | _ :: rows' => valid_samples start end_ rows'
  end.

(** The two row tests of [_calculate_mdot], on a row (time, weight). *)
Definition in_window (start end_ : R) (row : Np.float * Np.float) : bool :=
  Np.ge (fst row) start && Np.le (fst row) end_.

Definition not_nan (row : Np.float * Np.float) : bool :=
  negb (Np.isnan (fst row) || Np.isnan (snd row)).

(** The sum of squared residuals of the line [a * t + b]. *)
Definition sse (a b : R) (samples : list (R * R)) : R :=
  Np.sum (map (fun p => (snd p - (a * fst p + b)) ^ 2) samples).

(** The times of the samples are not all the same. *)
Definition time_varies (samples : list (R * R)) : Prop :=
  exists p q : R * R, In p samples /\ In q samples /\ fst p <> fst q.

(** A selector over [SelectorSpec.two_rows] with the whole run selected:
    10 lb at 0 s, 8 lb at 1 s. *)
Definition draining : window :=
  mk_window SelectorSpec.two_rows "Time" "Pressure" "Weight"
    (Some 0) (Some 1) 0 None None None None None true true
    (Some [Np.fin 0; Np.fin 1])
    (Py.Lit "") (Py.Lit "") true false.

(** Any answer for the rank-deficient case. *)
Definition no_answer (x y : list R) : option (R * R) := None.

End RateSpec.

Module DecimationSpec.
Import CdAPlotWindow.

(** A log of [n] rows, one per second, at constant pressure. *)
Definition long_table (n : nat) : Pd.DataFrame :=
  [("Time", map (fun i => Pd.Number (IZR (Z.of_nat i))) (seq 0 n));
   ("Pressure", repeat (Pd.Number 500) n)].

(** The time column at full resolution, as seconds: every row of the table,
    none removed. *)
Definition full_time (df : Pd.DataFrame) (time_col : string) : option (list Np.float) :=
  match Pd.getitem df time_col with
  | None => None
  | Some cells =>
      if Pd.isna_all (Pd.to_numeric cells) then
        if Pd.isna_all (Pd.to_datetime cells) then None
        else Some (Pd.seconds_since_min (Pd.to_datetime cells))
      else Some (Pd.to_numeric cells)
  end.

(** The number of points handed to matplotlib. *)
Definition plotted_points (w : window) : nat :=
  match fig w with
  | Some f => List.length (time_plot f)
  | None => 0
  end.

End DecimationSpec.

Module SelectorMoreSpec.
Import CdAPlotWindow SelectorSpec.


(** A click that the handler ignores. *)
Definition ignored (w : window) (event : MouseEvent) : Prop :=
  xdata event = None \/
  inaxes event = None \/ inaxes event = Some OtherAxes \/
  (ax2 w = false /\ inaxes event = Some Ax2).

End SelectorMoreSpec.

(** * Properties *)

(** ** Shared facts *)

Lemma Rleb_true (x y : R) : x <= y -> Np.Rleb x y = true.
Proof. unfold Np.Rleb. destruct (Rle_dec x y); intuition. Qed.

Lemma Rleb_false (x y : R) : y < x -> Np.Rleb x y = false.
Proof. unfold Np.Rleb. destruct (Rle_dec x y); intuition lra. Qed.

Lemma Rltb_true (x y : R) : x < y -> Np.Rltb x y = true.
Proof. unfold Np.Rltb. destruct (Rlt_dec x y); intuition. Qed.

Lemma Rltb_false (x y : R) : y <= x -> Np.Rltb x y = false.
Proof. unfold Np.Rltb. destruct (Rlt_dec x y); intuition lra. Qed.

Lemma sqrt_between (a b x : R) :
  0 <= a -> 0 <= b -> a * a <= x -> x <= b * b -> a <= sqrt x <= b.
Proof.
  intros Ha Hb Hax Hxb. split.
  - rewrite <- (sqrt_square a Ha). apply sqrt_le_1_alt. exact Hax.
  - rewrite <- (sqrt_square b Hb). apply sqrt_le_1_alt. exact Hxb.
Qed.

Lemma div_between (a b c s : R) :
  0 < s -> a * s < c -> c < b * s -> a < c / s < b.
Proof.
  intros Hs Ha Hb.
  assert (E : c / s * s = c) by (field; lra).
  split; apply Rmult_lt_reg_r with s; lra.
Qed.

(** ** The CdA panel *)

Module CdAFacts.
Import CdACalculatorWindow CdASpec.

Lemma calculate_cda_ok (w : window) (p_high p_low rho mdot : R) :
  p_high_var w = Py.Numeric p_high ->
  p_low_var w = Py.Numeric p_low ->
  rho_var w = Py.Numeric rho ->
  calculated_mdot w = Some mdot ->
  p_low < p_high -> 0 < rho ->
  _calculate_cda w =
    (Py.Normal tt,
     shows_cda (mdot / sqrt (2 * rho * delta_p_of p_high p_low)) w, []).
Proof.
  intros Hh Hl Hr Hm Hp Hrho.
  unfold _calculate_cda. py_unfold. rewrite Hh, Hl, Hr, Hm.
  rewrite Rleb_false by (unfold PSI_TO_PA; lra).
  rewrite Rleb_false by lra.
  reflexivity.
Qed.

Lemma calculate_cda_pressure_error (w : window) (p_high p_low rho mdot : R) :
  p_high_var w = Py.Numeric p_high ->
  p_low_var w = Py.Numeric p_low ->
  rho_var w = Py.Numeric rho ->
  calculated_mdot w = Some mdot ->
  p_high <= p_low ->
  _calculate_cda w =
    (Py.Returned, w, [Py.showerror_box "Error" "P_high must be greater than P_low."]).
Proof.
  intros Hh Hl Hr Hm Hp.
  unfold _calculate_cda. py_unfold. rewrite Hh, Hl, Hr, Hm.
  rewrite Rleb_true by (unfold PSI_TO_PA; lra).
  reflexivity.
Qed.

Lemma calculate_cda_density_error (w : window) (p_high p_low rho mdot : R) :
  p_high_var w = Py.Numeric p_high ->
  p_low_var w = Py.Numeric p_low ->
  rho_var w = Py.Numeric rho ->
  calculated_mdot w = Some mdot ->
  p_low < p_high -> rho <= 0 ->
  _calculate_cda w =
    (Py.Returned, w, [Py.showerror_box "Error" "Density must be positive."]).
Proof.
  intros Hh Hl Hr Hm Hp Hrho.
  unfold _calculate_cda. py_unfold. rewrite Hh, Hl, Hr, Hm.
  rewrite Rleb_false by (unfold PSI_TO_PA; lra).
  rewrite Rleb_true by lra.
  reflexivity.
Qed.

Lemma example_radicand : 2 * 1000 * delta_p_of 500 14.7 = 6692054056.
Proof. unfold delta_p_of, PSI_TO_PA. lra. Qed.

Lemma example_cda_bounds :
  6.112e-6 < 0.5 / sqrt (2 * 1000 * delta_p_of 500 14.7) < 6.1122e-6.
Proof.
  rewrite example_radicand.
  destruct (sqrt_between 81804.9 81805 6692054056) as [Hlo Hhi]; try lra.
  apply div_between; lra.
Qed.

(** C2, the value the specification gives for its worked example: the
    stored CdA for 500 PSI, 14.7 PSI, 1000 kg/m³ and 0.5 kg/s is below 1e-5,
    so it is not 1.934e-4 to the four digits written (it is that value
    divided by the square root of the density, which the worked example
    left out). *)
Lemma example_cda_is_not_1934e_7 :
  exists cda : R,
    calculated_cda (Py.state_of (_calculate_cda example_window)) = Some cda /\
    cda < 1e-5 /\
    ~ Rabs (cda - 1.934e-4) <= 5e-8.
Proof.
  exists (0.5 / sqrt (2 * 1000 * delta_p_of 500 14.7)).
  pose proof example_cda_bounds as [Hlo Hhi].
  split; [|split].
  - rewrite (calculate_cda_ok example_window 500 14.7 1000 0.5);
      try reflexivity; lra.
  - lra.
  - intros H. unfold Rabs in H. destruct (Rcase_abs _) in H; lra.
Qed.

(** C2 (amended): with numeric entries and a stored rate, [_calculate_cda]
    stores and shows mdot / sqrt(2 rho dP), dP = (P_high - P_low) * 6894.76,
    when P_high > P_low and rho > 0; it shows an error box and returns with
    the window untouched when P_high <= P_low or rho <= 0; and for the worked
    example (500, 14.7, 1000, 0.5) the stored value lies between 6.112e-6 and
    6.1122e-6. *)
Theorem calculate_cda_spec (w : window) (p_high p_low rho mdot : R) :
  p_high_var w = Py.Numeric p_high ->
  p_low_var w = Py.Numeric p_low ->
  rho_var w = Py.Numeric rho ->
  calculated_mdot w = Some mdot ->
  (p_low < p_high -> 0 < rho ->
     _calculate_cda w =
       (Py.Normal tt,
        shows_cda (mdot / sqrt (2 * rho * ((p_high - p_low) * 6894.76))) w,
        [])) /\
  (p_high <= p_low \/ rho <= 0 ->
     exists msg : string,
       _calculate_cda w = (Py.Returned, w, [Py.showerror_box "Error" msg])) /\
  (p_high = 500 -> p_low = 14.7 -> rho = 1000 -> mdot = 0.5 ->
     exists cda : R,
       calculated_cda (Py.state_of (_calculate_cda w)) = Some cda /\
       6.112e-6 < cda < 6.1122e-6).
Proof.
  intros Hh Hl Hr Hm. split; [|split].
  - intros Hp Hrho.
    rewrite (calculate_cda_ok w p_high p_low rho mdot) by assumption.
    replace ((p_high - p_low) * 6894.76) with (delta_p_of p_high p_low)
      by (unfold delta_p_of, PSI_TO_PA; lra).
    reflexivity.
  - intros Hbad.
    destruct (Rle_lt_dec p_high p_low) as [Hp|Hp].
    + eexists. eapply calculate_cda_pressure_error; eassumption.
    + destruct Hbad as [Hbad|Hrho]; [lra|].
      eexists. eapply calculate_cda_density_error; eassumption.
  - intros -> -> -> ->.
    exists (0.5 / sqrt (2 * 1000 * delta_p_of 500 14.7)). split.
    + rewrite (calculate_cda_ok w 500 14.7 1000 0.5) by (assumption || lra).
      reflexivity.
    + exact example_cda_bounds.
Qed.

Lemma calculate_cda_spec_witness :
  exists cda : R,
    calculated_cda (Py.state_of (_calculate_cda example_window)) = Some cda /\
    6.112e-6 < cda < 6.1122e-6.
Proof.
  destruct (calculate_cda_spec example_window 500 14.7 1000 0.5
              eq_refl eq_refl eq_refl eq_refl) as (_ & _ & H).
  apply H; reflexivity.
Defined.

(** *** The set-pressure panel *)

Lemma calculate_setpoint_ok (w : window) (cda mdot rho manifold : R) :
  setpoint_cda_var w = Py.Numeric cda ->
  setpoint_mdot_var w = Py.Numeric mdot ->
  setpoint_rho_var w = Py.Numeric rho ->
  manifold_p_var w = Py.Numeric manifold ->
  0 < cda -> 0 < rho ->
  _calculate_setpoint w =
    (Py.Normal tt,
     shows_setpoint
       (((mdot / cda) ^ 2 / (2 * rho) + manifold * PSI_TO_PA) / PSI_TO_PA)
       ((mdot / cda) ^ 2 / (2 * rho) + manifold * PSI_TO_PA) w,
     []).
Proof.
  intros Hc Hm Hr Hp Hcda Hrho.
  unfold _calculate_setpoint. py_unfold. rewrite Hc, Hm, Hr, Hp.
  rewrite !Rleb_false by lra. reflexivity.
Qed.


Lemma shows_setpoint_labels (p_set_psi p_set_pa : R) (w : window) :
  setpoint_result_label (shows_setpoint p_set_psi p_set_pa w) =
    Py.Fmt "P_set = " p_set_psi ".1f" " PSI" /\
  setpoint_result_pa (shows_setpoint p_set_psi p_set_pa w) =
    Py.Fmt "(" p_set_pa ".0f" " Pa)".
Proof. destruct w. split; reflexivity. Qed.




End CdAFacts.

(** ** The column auto-detector *)

Module AutodetectFacts.
Import CdACalculatorWindow AutodetectSpec.

Lemma contains_nonempty (sub s : string) :
  Str.is_empty sub = false -> Str.contains sub s = true -> Str.is_empty s = false.
Proof.
  destruct s; [|reflexivity].
  destruct sub; [discriminate|]. cbn. discriminate.
Qed.

Lemma lower_nonempty (s : string) : Str.is_empty (Str.lower s) = Str.is_empty s.
Proof. destruct s; reflexivity. Qed.

Lemma is_pressure_nonempty (col : string) :
  is_pressure col = true -> Str.is_empty col = false.
Proof.
  unfold is_pressure. intros H. rewrite <- lower_nonempty.
  apply orb_true_iff in H as [H|H];
    eapply contains_nonempty; try exact H; reflexivity.
Qed.

Lemma is_weight_nonempty (col : string) :
  is_weight col = true -> Str.is_empty col = false.
Proof.
  unfold is_weight. intros H. rewrite <- lower_nonempty.
  apply orb_true_iff in H as [H|H];
    eapply contains_nonempty; try exact H; reflexivity.
Qed.

(** A column that matches the time test is kept by the first branch. *)
Lemma step_time (w : window) (col : string) :
  is_time col = true -> autodetect_step w col = set_time col w.
Proof. intros H. unfold autodetect_step. rewrite H. reflexivity. Qed.

Lemma autodetect_time (columns : list string) (w : window) :
  let w' := _autodetect_columns columns w in
  time_combo w' = match last_match is_time columns with
                  | Some col => col
                  | None => time_combo w
                  end /\
  time_col w' = match last_match is_time columns with
                | Some col => Some col
                | None => time_col w
                end.
Proof.
  revert w. induction columns as [|c l IH]; intros w; [split; reflexivity|].
  cbn -[autodetect_step]. specialize (IH (autodetect_step w c)).
  cbn zeta in IH. unfold _autodetect_columns in IH. destruct IH as [IH1 IH2].
  rewrite IH1, IH2.
  destruct (last_match is_time l); [split; reflexivity|].
  unfold autodetect_step.
  destruct (is_time c); [split; reflexivity|].
  destruct (is_pressure c); [destruct (Str.is_empty (pressure_combo w)); split; reflexivity|].
  destruct (is_weight c); [destruct (Str.is_empty (weight_combo w)); split; reflexivity|].
  split; reflexivity.
Qed.

Lemma autodetect_pressure (columns : list string) (w : window) :
  let w' := _autodetect_columns columns w in
  pressure_combo w' =
    (if Str.is_empty (pressure_combo w) then
       match find pressure_only columns with
       | Some col => col
       | None => pressure_combo w
       end
     else pressure_combo w) /\
  pressure_col w' =
    (if Str.is_empty (pressure_combo w) then
       match find pressure_only columns with
       | Some col => Some col
       | None => pressure_col w
       end
     else pressure_col w).
Proof.
  revert w. induction columns as [|c l IH]; intros w.
  { cbn. destruct (Str.is_empty (pressure_combo w)); split; reflexivity. }
  cbn -[autodetect_step]. specialize (IH (autodetect_step w c)).
  cbn zeta in IH. unfold _autodetect_columns in IH. destruct IH as [IH1 IH2].
  rewrite IH1, IH2. clear IH1 IH2.
  unfold autodetect_step, pressure_only.
  destruct (is_time c) eqn:Ht; cbn; [rewrite andb_false_r; split; reflexivity|].
  destruct (is_pressure c) eqn:Hp; cbn.
  - destruct (Str.is_empty (pressure_combo w)) eqn:He; cbn.
    + rewrite (is_pressure_nonempty c Hp). split; reflexivity.
    + rewrite He. split; reflexivity.
  - destruct (is_weight c);
      [destruct (Str.is_empty (weight_combo w))|]; split; reflexivity.
Qed.

Lemma autodetect_weight (columns : list string) (w : window) :
  let w' := _autodetect_columns columns w in
  weight_combo w' =
    (if Str.is_empty (weight_combo w) then
       match find weight_only columns with
       | Some col => col
       | None => weight_combo w
       end
     else weight_combo w) /\
  weight_col w' =
    (if Str.is_empty (weight_combo w) then
       match find weight_only columns with
       | Some col => Some col
       | None => weight_col w
       end
     else weight_col w).
Proof.
  revert w. induction columns as [|c l IH]; intros w.
  { cbn. destruct (Str.is_empty (weight_combo w)); split; reflexivity. }
  cbn -[autodetect_step]. specialize (IH (autodetect_step w c)).
  cbn zeta in IH. unfold _autodetect_columns in IH. destruct IH as [IH1 IH2].
  rewrite IH1, IH2. clear IH1 IH2.
  unfold autodetect_step, weight_only.
  destruct (is_time c) eqn:Ht; cbn; [rewrite andb_false_r; split; reflexivity|].
  destruct (is_pressure c) eqn:Hp; cbn.
  - destruct (Str.is_empty (pressure_combo w)); cbn;
      rewrite ?andb_false_r; split; reflexivity.
  - destruct (is_weight c) eqn:Hw; cbn; [|split; reflexivity].
    destruct (Str.is_empty (weight_combo w)) eqn:He; cbn.
    + rewrite (is_weight_nonempty c Hw). split; reflexivity.
    + rewrite He. split; reflexivity.
Qed.

(** C6 as stated fails on names that match two categories: for the columns
    "Press Time", "Tank Pressure", "Mass Pressure", "Tank Mass" the first
    name containing "press" is "Press Time" and the first containing "mass"
    is "Mass Pressure", but the detector selects "Tank Pressure" and
    "Tank Mass". *)
Lemma first_match_per_category_fails :
  let w' := _autodetect_columns overlapping_columns initial in
  find is_pressure overlapping_columns = Some "Press Time" /\
  pressure_combo w' = "Tank Pressure" /\
  find is_weight overlapping_columns = Some "Mass Pressure" /\
  weight_combo w' = "Tank Mass" /\
  Some (pressure_combo w') <> find is_pressure overlapping_columns /\
  Some (weight_combo w') <> find is_weight overlapping_columns.
Proof.
  cbv zeta. repeat split; try reflexivity; vm_compute; discriminate.
Qed.

(** C6 (amended): for every list of column names and every window, after
    [_autodetect_columns] the time selection is the last column that matches
    the time test (unchanged when there is none); the pressure selection, if
    it was empty, is the first column that matches the pressure test and not
    the time test, and is left as it was if it was not empty or no such column
    exists; the weight selection, if it was empty, is the first column that
    matches the weight test and neither the time nor the pressure test, and is
    left as it was otherwise.  The stored column attributes follow the
    selections. *)
Theorem autodetect_columns_spec (columns : list string) (w : window) :
  let w' := _autodetect_columns columns w in
  (time_combo w' = match last_match is_time columns with
                   | Some col => col
                   | None => time_combo w
                   end /\
   time_col w' = match last_match is_time columns with
                 | Some col => Some col
                 | None => time_col w
                 end) /\
  (pressure_combo w' =
     (if Str.is_empty (pressure_combo w) then
        match find pressure_only columns with
        | Some col => col
        | None => pressure_combo w
        end
      else pressure_combo w) /\
   pressure_col w' =
     (if Str.is_empty (pressure_combo w) then
        match find pressure_only columns with
        | Some col => Some col
        | None => pressure_col w
        end
      else pressure_col w)) /\
  (weight_combo w' =
     (if Str.is_empty (weight_combo w) then
        match find weight_only columns with
        | Some col => col
        | None => weight_combo w
        end
      else weight_combo w) /\
   weight_col w' =
     (if Str.is_empty (weight_combo w) then
        match find weight_only columns with
        | Some col => Some col
        | None => weight_col w
        end
      else weight_col w)).
Proof.
  cbv zeta. split; [|split].
  - apply autodetect_time.
  - apply autodetect_pressure.
  - apply autodetect_weight.
Qed.

Lemma last_match_some {A : Type} (f : A -> bool) (l : list A) (c : A) :
  last_match f l = Some c -> In c l /\ f c = true.
Proof.
  induction l as [|x l IH]; [discriminate|]. cbn.
  destruct (last_match f l) as [y|].
  - intros H. injection H as <-. destruct (IH eq_refl) as [Hin Hf].
    split; [right; exact Hin|exact Hf].
  - destruct (f x) eqn:Hx; [|discriminate].
    intros H. injection H as <-. split; [left; reflexivity|exact Hx].
Qed.

Lemma last_match_exists {A : Type} (f : A -> bool) (l : list A) (x : A) :
  In x l -> f x = true -> exists c : A, last_match f l = Some c.
Proof.
  induction l as [|y l IH]; [intros []|]. cbn. intros [->|Hin] Hf.
  - destruct (last_match f l) as [c|]; [exists c; reflexivity|].
    rewrite Hf. exists x. reflexivity.
  - destruct (IH Hin Hf) as [c Hc]. rewrite Hc. exists c. reflexivity.
Qed.

(** C10: a column whose lowercase name contains "time" or equals "t" is
    taken by the first branch of the chain, whatever else its name contains:
    after the step the time selection and the time column are that column,
    and the pressure and weight selections and columns are what they were.
    Over a whole run with a time-matching column in the list, the time
    selection ends as a time-matching column of the list (the last one); a
    pressure or weight selection whose name matches the time test was not
    put there by the detector, it is the selection from before the call; and
    a list in which every column matches the time test leaves the pressure
    and weight selections untouched, even where the names also contain
    "pressure", "press", "weight" or "mass". *)
Theorem time_match_is_exclusive :
  (forall (w : window) (col : string),
     is_time col = true ->
     time_combo (autodetect_step w col) = col /\
     time_col (autodetect_step w col) = Some col /\
     pressure_combo (autodetect_step w col) = pressure_combo w /\
     pressure_col (autodetect_step w col) = pressure_col w /\
     weight_combo (autodetect_step w col) = weight_combo w /\
     weight_col (autodetect_step w col) = weight_col w) /\
  (forall (columns : list string) (w : window) (col : string),
     In col columns -> is_time col = true ->
     let w' := _autodetect_columns columns w in
     (exists c : string,
        In c columns /\ is_time c = true /\ last_match is_time columns = Some c /\
        time_combo w' = c /\ time_col w' = Some c) /\
     (pressure_combo w' = col -> pressure_combo w = col) /\
     (weight_combo w' = col -> weight_combo w = col)) /\
  (forall (columns : list string) (w : window),
     (forall c : string, In c columns -> is_time c = true) ->
     let w' := _autodetect_columns columns w in
     pressure_combo w' = pressure_combo w /\ pressure_col w' = pressure_col w /\
     weight_combo w' = weight_combo w /\ weight_col w' = weight_col w).
Proof.
  split; [|split].
  - intros w col H. rewrite (step_time w col H). repeat split.
  - intros columns w col Hin Ht. cbv zeta.
    destruct (autodetect_time columns w) as [Htc Htl].
    destruct (autodetect_pressure columns w) as [Hp _].
    destruct (autodetect_weight columns w) as [Hw _].
    cbv zeta in Htc, Htl, Hp, Hw. split; [|split].
    + destruct (last_match_exists is_time columns col Hin Ht) as [c Hc].
      destruct (last_match_some is_time columns c Hc) as [Hcin Hct].
      exists c. rewrite Htc, Htl, Hc. repeat split; assumption.
    + rewrite Hp.
      destruct (Str.is_empty (pressure_combo w)); [|intros H; exact H].
      destruct (find pressure_only columns) as [c|] eqn:Hf; [|intros H; exact H].
      apply find_some in Hf as [_ Hc]. unfold pressure_only in Hc.
      apply andb_true_iff in Hc as [_ Hc]. intros ->.
      rewrite Ht in Hc. discriminate.
    + rewrite Hw.
      destruct (Str.is_empty (weight_combo w)); [|intros H; exact H].
      destruct (find weight_only columns) as [c|] eqn:Hf; [|intros H; exact H].
      apply find_some in Hf as [_ Hc]. unfold weight_only in Hc.
      apply andb_true_iff in Hc as [Hc _].
      apply andb_true_iff in Hc as [_ Hc]. intros ->.
      rewrite Ht in Hc. discriminate.
  - intros columns w Hall. cbv zeta.
    destruct (autodetect_pressure columns w) as [Hp Hpc].
    destruct (autodetect_weight columns w) as [Hw Hwc].
    cbv zeta in Hp, Hpc, Hw, Hwc. rewrite Hp, Hpc, Hw, Hwc.
    assert (Hnp : find pressure_only columns = None).
    { destruct (find pressure_only columns) as [c|] eqn:Hf; [|reflexivity].
      apply find_some in Hf as [Hin Hc]. unfold pressure_only in Hc.
      apply andb_true_iff in Hc as [_ Hc]. rewrite (Hall c Hin) in Hc. discriminate. }
    assert (Hnw : find weight_only columns = None).
    { destruct (find weight_only columns) as [c|] eqn:Hf; [|reflexivity].
      apply find_some in Hf as [Hin Hc]. unfold weight_only in Hc.
      apply andb_true_iff in Hc as [Hc _].
      apply andb_true_iff in Hc as [_ Hc]. rewrite (Hall c Hin) in Hc. discriminate. }
    rewrite Hnp, Hnw.
    destruct (Str.is_empty (pressure_combo w)), (Str.is_empty (weight_combo w));
      repeat split.
Qed.

Lemma time_match_is_exclusive_witness :
  time_combo (autodetect_step initial "Pressure Time") = "Pressure Time" /\
  time_col (autodetect_step initial "Pressure Time") = Some "Pressure Time" /\
  pressure_combo (autodetect_step initial "Pressure Time") = "" /\
  is_pressure "Pressure Time" = true.
Proof.
  destruct (proj1 time_match_is_exclusive initial "Pressure Time" eq_refl)
    as (Ht & Hc & Hp & _).
  split; [exact Ht|]. split; [exact Hc|]. split; [exact Hp|reflexivity].
Defined.

End AutodetectFacts.

(** ** The time-range selector *)

Module SelectorFacts.
Import CdAPlotWindow SelectorSpec.

Lemma first_click (w : window) (event : MouseEvent) (x : R) :
  click_count w = 0%nat -> delivered w event x ->
  _on_plot_click event w = (Py.Normal tt, after_first_click x w, []).
Proof.
  intros Hc [Hax Hx].
  destruct w as [d tc pc wc st en cc sl el sl2 el2 fg a2 ci tdn slab elab cb ds].
  destruct event as [ia xd]. cbn in *. subst.
  destruct Hax as [->|[-> ->]]; [destruct a2|]; vm_compute; reflexivity.
Qed.

Lemma second_click (w : window) (event : MouseEvent) (x s : R) :
  click_count w = 1%nat -> start_time w = Some s -> delivered w event x ->
  exists w' : window,
    _on_plot_click event w = (Py.Normal tt, w', []) /\
    start_time w' = Some (if x <? s then x else s) /\
    end_time w' = Some (if x <? s then s else x) /\
    confirm_btn w' = true /\
    click_count w' = 0%nat /\
    ax2 w' = ax2 w.
Proof.
  intros Hc Hs [Hax Hx].
  destruct w as [d tc pc wc st en cc sl el sl2 el2 fg a2 ci tdn slab elab cb ds].
  destruct event as [ia xd]. cbn in *. subst.
  destruct Hax as [->|[-> ->]]; [destruct a2|];
    cbv -[Np.Rltb]; destruct (x <? s); destruct sl, sl2;
    eexists; repeat split.
Qed.

Lemma ordered_pair (x s : R) :
  (if x <? s then x else s) <= (if x <? s then s else x).
Proof.
  unfold Np.Rltb. destruct (Rlt_dec x s); lra.
Qed.

Lemma swapped_is_min_max (x s : R) :
  (if x <? s then x else s) = Rmin s x /\ (if x <? s then s else x) = Rmax s x.
Proof.
  unfold Np.Rltb, Rmin, Rmax.
  destruct (Rlt_dec x s), (Rle_dec s x); split; lra.
Qed.

Lemma click_ignored_or_delivered (w : window) (event : MouseEvent) :
  _on_plot_click event w = (Py.Returned, w, []) \/
  exists x : R, delivered w event x.
Proof.
  destruct w as [d tc pc wc st en cc sl el sl2 el2 fg a2 ci tdn slab elab cb ds].
  destruct event as [ia xd]. unfold delivered. cbn.
  destruct xd as [x|].
  - destruct a2, ia as [[| |]|];
      solve [ right; exists x; intuition
            | left; unfold _on_plot_click; py_unfold; reflexivity ].
  - left. unfold _on_plot_click. py_unfold. cbn.
    destruct a2, ia as [[| |]|]; reflexivity.
Qed.

Lemma after_first_click_selection (x : R) (w : window) :
  click_count w = 0%nat ->
  click_count (after_first_click x w) = 1%nat /\
  start_time (after_first_click x w) = Some x /\
  end_time (after_first_click x w) = None /\
  confirm_btn (after_first_click x w) = false.
Proof.
  intros Hc.
  destruct w as [d tc pc wc st en cc sl el sl2 el2 fg a2 ci tdn slab elab cb ds].
  cbn in Hc. subst. unfold after_first_click. cbn. destruct a2; repeat split.
Qed.

(** The invariant of the selection is kept by every callback, and no
    callback lets an exception escape from a state that satisfies it. *)
Lemma perform_keeps_inv (a : action) (w : window) :
  selection_inv w -> selection_inv (perform a w).
Proof.
  intros [Hcount Hord]. destruct a as [event|].
  - unfold perform.
    destruct (click_ignored_or_delivered w event) as [Hig|[x Hd]].
    { rewrite Hig. run_simpl. split; assumption. }
    destruct Hcount as [H0|[H1 [s Hs]]].
    + rewrite (first_click w event x H0 Hd). run_simpl.
      destruct (after_first_click_selection x w H0) as (Hc & Hst & Hen & _).
      split.
      * right. split; [exact Hc|]. exists x. exact Hst.
      * intros s e _ He. rewrite Hen in He. discriminate.
    + destruct (second_click w event x s H1 Hs Hd)
        as (w' & Hrun & Hst & Hen & _ & Hc & _).
      rewrite Hrun. run_simpl. split.
      * left. exact Hc.
      * intros s' e' Hs' He'. rewrite Hst in Hs'. rewrite Hen in He'.
        injection Hs' as <-. injection He' as <-. apply ordered_pair.
  - destruct w as [d tc pc wc st en cc sl el sl2 el2 fg a2 ci tdn slab elab cb ds].
    split; [left; reflexivity|]. intros s e Hs. discriminate Hs.
Qed.

Lemma run_keeps_inv (actions : list action) (w : window) :
  selection_inv w -> selection_inv (run actions w).
Proof.
  revert w. induction actions as [|a l IH]; intros w Hw; [exact Hw|].
  cbn. apply IH. apply perform_keeps_inv. exact Hw.
Qed.

Lemma fresh_inv (df : Pd.DataFrame) (tc pc wc : string) :
  selection_inv (fresh df tc pc wc).
Proof.
  split; [left; reflexivity|]. intros s e Hs. discriminate Hs.
Qed.

Lemma click_never_raises (w : window) (event : MouseEvent) :
  selection_inv w -> Py.escaped (Py.outcome_of (_on_plot_click event w)) = false.
Proof.
  intros [Hcount _].
  destruct (click_ignored_or_delivered w event) as [Hig|[x Hd]].
  { rewrite Hig. reflexivity. }
  destruct Hcount as [H0|[H1 [s Hs]]].
  - rewrite (first_click w event x H0 Hd). reflexivity.
  - destruct (second_click w event x s H1 Hs Hd) as (w' & Hrun & _).
    rewrite Hrun. reflexivity.
Qed.

(** C4: two delivered clicks at x1 and then x2, starting where a pair starts
    (click counter 0), leave start = min(x1, x2) and end = max(x1, x2), so
    start <= end, with the confirm button enabled and the counter back at 0:
    when x2 < x1 the two are exchanged.  And whatever sequence of clicks and
    resets a new selector receives, a stored pair is ordered. *)
Theorem click_pair_is_ordered :
  (forall (w : window) (e1 e2 : MouseEvent) (x1 x2 : R),
     click_count w = 0%nat ->
     delivered w e1 x1 -> delivered w e2 x2 ->
     let w' := run [Click e1; Click e2] w in
     start_time w' = Some (Rmin x1 x2) /\
     end_time w' = Some (Rmax x1 x2) /\
     Rmin x1 x2 <= Rmax x1 x2 /\
     (x2 < x1 -> start_time w' = Some x2 /\ end_time w' = Some x1) /\
     confirm_btn w' = true /\
     click_count w' = 0%nat) /\
  (forall (df : Pd.DataFrame) (tc pc wc : string) (actions : list action),
     ordered (run actions (fresh df tc pc wc))).
Proof.
  split.
  - intros w e1 e2 x1 x2 Hc Hd1 Hd2. cbv zeta.
    unfold run. cbn [fold_left]. unfold perform.
    rewrite (first_click w e1 x1 Hc Hd1). run_simpl.
    destruct (after_first_click_selection x1 w Hc) as (Hc1 & Hs1 & _).
    assert (Hd2' : delivered (after_first_click x1 w) e2 x2).
    { destruct Hd2 as [Hax Hx]. split; [|exact Hx].
      destruct Hax as [Hax|[Ha Hax]]; [left; exact Hax|right].
      split; [|exact Hax].
      destruct w as [d tc pc wc st en cc sl el sl2 el2 fg a2 ci tdn slab elab cb ds].
      cbn in Ha. subst. reflexivity. }
    destruct (second_click _ e2 x2 x1 Hc1 Hs1 Hd2')
      as (w' & Hrun & Hst & Hen & Hcb & Hcc & _).
    rewrite Hrun. run_simpl.
    destruct (swapped_is_min_max x2 x1) as [Emin Emax].
    rewrite Hst, Hen, Emin, Emax.
    repeat split; try assumption.
    + apply Rle_trans with x1; [apply Rmin_l | apply Rmax_l].
    + f_equal. unfold Rmin. destruct (Rle_dec x1 x2); lra.
    + f_equal. unfold Rmax. destruct (Rle_dec x1 x2); lra.
  - intros df tc pc wc actions.
    apply (run_keeps_inv actions (fresh df tc pc wc)). apply fresh_inv.
Qed.

Lemma click_pair_is_ordered_witness :
  let w' := run [Click (click_at 7); Click (click_at 3)]
              (fresh two_rows "Time" "Pressure" "Weight") in
  start_time w' = Some 3 /\ end_time w' = Some 7.
Proof.
  cbv zeta.
  destruct (proj1 click_pair_is_ordered
              (fresh two_rows "Time" "Pressure" "Weight")
              (click_at 7) (click_at 3) 7 3 eq_refl
              (conj (or_introl eq_refl) eq_refl)
              (conj (or_introl eq_refl) eq_refl))
    as (_ & _ & _ & Hswap & _).
  apply Hswap. lra.
Defined.

End SelectorFacts.

(** ** Parsing the time column *)

Module TimeFacts.
Import TimeSpec.

Lemma min_is_least (a : list Np.float) :
  Pd.isna_all a = false ->
  exists m : R,
    Pd.min a = Np.fin m /\ In (Np.fin m) a /\
    forall x : R, In (Np.fin x) a -> m <= x.
Proof.
  induction a as [|[|x] a IH]; cbn; intros H; [discriminate| |].
  - destruct (IH H) as (m & Hm & Hin & Hle). exists m.
    split; [exact Hm|]. split; [right; exact Hin|].
    intros y [Hy|Hy]; [discriminate|auto].
  - destruct (Pd.isna_all a) eqn:Hall.
    + assert (Hnan : Pd.min a = Np.nan /\ forall y, ~ In (Np.fin y) a).
      { clear -Hall. induction a as [|[|z] a IH]; cbn in *;
          [split; [reflexivity|intros y []]| |discriminate].
        destruct (IH Hall) as [E N]. split; [exact E|].
        intros y [Hy|Hy]; [discriminate|exact (N y Hy)]. }
      destruct Hnan as [E N]. rewrite E. exists x.
      split; [reflexivity|]. split; [left; reflexivity|].
      intros y [Hy|Hy]; [injection Hy as <-; lra|destruct (N y Hy)].
    + destruct (IH eq_refl) as (m & Hm & Hin & Hle). rewrite Hm.
      exists (Rmin x m). split; [reflexivity|]. split.
      * unfold Rmin. destruct (Rle_dec x m); [left; reflexivity|right; exact Hin].
      * intros y [Hy|Hy].
        -- injection Hy as <-. apply Rmin_l.
        -- apply Rle_trans with m; [apply Rmin_r|auto].
Qed.

Lemma unsorted_elapsed :
  CdACalculatorWindow._get_numeric_time_data
    (with_table unsorted_stamps "Timestamp" CdACalculatorWindow.initial) =
  inr (Some [Np.fin (10 - Rmin 10 5); Np.fin (5 - Rmin 10 5)]).
Proof. reflexivity. Qed.

(** C8 as stated fails on a log that is not in time order: for the stamps
    10 s and 5 s the method returns 5 and 0, the seconds elapsed since the
    earliest stamp, where elapsed seconds from the first stamp are 0 and -5. *)
Lemma elapsed_is_not_from_first_stamp :
  exists a b : R,
    CdACalculatorWindow._get_numeric_time_data
      (with_table unsorted_stamps "Timestamp" CdACalculatorWindow.initial) =
    inr (Some [Np.fin a; Np.fin b]) /\
    a = 5 /\ b = 0 /\
    seconds_since_first [Np.fin 10; Np.fin 5] = [Np.fin (10 - 10); Np.fin (5 - 10)] /\
    [Np.fin a; Np.fin b] <> seconds_since_first [Np.fin 10; Np.fin 5].
Proof.
  exists (10 - Rmin 10 5), (5 - Rmin 10 5).
  assert (E : Rmin 10 5 = 5) by (unfold Rmin; destruct (Rle_dec 10 5); lra).
  split; [exact unsorted_elapsed|]. rewrite E.
  split; [lra|]. split; [lra|]. split; [reflexivity|].
  cbn. intros H. injection H as H1 H2. lra.
Qed.

Lemma get_numeric_time_data_cases
  (w : CdACalculatorWindow.window) (d : Pd.DataFrame) (col : string)
  (cells : list Pd.cell) :
  CdACalculatorWindow.df w = Some d ->
  CdACalculatorWindow.time_col w = Some col ->
  Pd.getitem d col = Some cells ->
  CdACalculatorWindow._get_numeric_time_data w =
    if Pd.isna_all (Pd.to_numeric cells) then
      if Pd.isna_all (Pd.to_datetime cells) then inr None
      else inr (Some (Pd.seconds_since_min (Pd.to_datetime cells)))
    else inr (Some (Pd.to_numeric cells)).
Proof.
  intros Hd Hc Hg. unfold CdACalculatorWindow._get_numeric_time_data.
  rewrite Hd, Hc, Hg. reflexivity.
Qed.

Lemma prepare_plot_data_unreadable (w : CdAPlotWindow.window) (cells : list Pd.cell) :
  Pd.getitem (CdAPlotWindow.df w) (CdAPlotWindow.time_col w) = Some cells ->
  Pd.isna_all (Pd.to_numeric cells) = true ->
  Pd.isna_all (Pd.to_datetime cells) = true ->
  CdAPlotWindow._prepare_plot_data w =
    (Py.Raised (Py.ValueError "Could not parse time column"), w, []).
Proof.
  intros Hg Hn Hd. unfold CdAPlotWindow._prepare_plot_data. py_eval.
  rewrite Hg. py_eval. rewrite Hn. py_eval. rewrite Hd. reflexivity.
Qed.

(** C8 (amended): the time column is first read as numbers, and if any cell
    is numeric that reading is the result.  Only when no cell is numeric are
    the cells read as timestamps; if any parses, the result is, cell by cell,
    the seconds elapsed since the earliest parsed timestamp [m] (not the
    first one), NaN where the cell did not parse.  When neither reading gives
    a value, [_get_numeric_time_data] returns None and [_prepare_plot_data]
    raises the parse error, the window untouched. *)
Theorem time_parsing_spec
  (w : CdACalculatorWindow.window) (d : Pd.DataFrame) (col : string)
  (cells : list Pd.cell) :
  CdACalculatorWindow.df w = Some d ->
  CdACalculatorWindow.time_col w = Some col ->
  Pd.getitem d col = Some cells ->
  (Pd.isna_all (Pd.to_numeric cells) = false ->
     CdACalculatorWindow._get_numeric_time_data w =
       inr (Some (Pd.to_numeric cells))) /\
  (Pd.isna_all (Pd.to_numeric cells) = true ->
   Pd.isna_all (Pd.to_datetime cells) = false ->
     exists m : R,
       In (Np.fin m) (Pd.to_datetime cells) /\
       (forall x : R, In (Np.fin x) (Pd.to_datetime cells) -> m <= x) /\
       CdACalculatorWindow._get_numeric_time_data w =
         inr (Some (map (fun t => Np.sub t (Np.fin m)) (Pd.to_datetime cells)))) /\
  (Pd.isna_all (Pd.to_numeric cells) = true ->
   Pd.isna_all (Pd.to_datetime cells) = true ->
     CdACalculatorWindow._get_numeric_time_data w = inr None /\
     forall pw : CdAPlotWindow.window,
       Pd.getitem (CdAPlotWindow.df pw) (CdAPlotWindow.time_col pw) = Some cells ->
       CdAPlotWindow._prepare_plot_data pw =
         (Py.Raised (Py.ValueError "Could not parse time column"), pw, [])).
Proof.
  intros Hd Hc Hg.
  pose proof (get_numeric_time_data_cases w d col cells Hd Hc Hg) as E.
  split; [|split].
  - intros Hn. rewrite E, Hn. reflexivity.
  - intros Hn Ht. rewrite E, Hn, Ht.
    destruct (min_is_least _ Ht) as (m & Hm & Hin & Hle).
    exists m. split; [exact Hin|]. split; [exact Hle|].
    unfold Pd.seconds_since_min. rewrite Hm. reflexivity.
  - intros Hn Ht. split.
    + rewrite E, Hn, Ht. reflexivity.
    + intros pw Hpw. apply prepare_plot_data_unreadable with cells; assumption.
Qed.

Lemma time_parsing_spec_witness :
  CdACalculatorWindow._get_numeric_time_data
    (with_table unreadable_times "Time" CdACalculatorWindow.initial) = inr None.
Proof.
  destruct (time_parsing_spec
              (with_table unreadable_times "Time" CdACalculatorWindow.initial)
              unreadable_times "Time" [Pd.Text "start"; Pd.Blank]
              eq_refl eq_refl eq_refl) as (_ & _ & H).
  apply H; reflexivity.
Defined.

End TimeFacts.

(** ** The venturi window *)

Module VenturiFacts.
Import VenturiMdotWindow VenturiSpec.

(** The vectorised pipeline of [_calculate_and_plot] computes, cell by
    cell, [sample_mdot]. *)
Lemma pipeline_is_sample_mdot (cd y a1_in2 a2_in2 rho : R) (p1_psi p2_psi : list Np.float) :
  0 < a2_in2 -> a2_in2 < a1_in2 ->
  match Np.elementwise Np.sub (map (Np.scale PSI_TO_PA) p1_psi)
                              (map (Np.scale PSI_TO_PA) p2_psi) with
  | Some delta_p =>
      Some (map Np.nan_to_num
              (map (fun d =>
                      Np.lift1 (fun r => cd * y * (a2_in2 * IN2_TO_M2) * r)
                        (Np.sqrt
                           (Np.lift1
                              (fun d => 2 * rho * d /
                                        (1 - (a2_in2 * IN2_TO_M2 / (a1_in2 * IN2_TO_M2)) ^ 2))
                              d)))
                   (map (fun d => Np.maximum d 0) delta_p)))
  | None => None
  end = Np.elementwise (sample_mdot cd y a1_in2 a2_in2 rho) p1_psi p2_psi.
Proof.
  intros Ha2 Ha1.
  set (F := fun d : Np.float =>
              Np.lift1 (fun r => cd * y * (a2_in2 * IN2_TO_M2) * r)
                (Np.sqrt
                   (Np.lift1
                      (fun d => 2 * rho * d /
                                (1 - (a2_in2 * IN2_TO_M2 / (a1_in2 * IN2_TO_M2)) ^ 2))
                      d))).
  revert p2_psi.
  induction p1_psi as [|p1 l1 IH]; intros [|p2 l2]; try reflexivity.
  cbn [map Np.elementwise]. specialize (IH l2).
  destruct (Np.elementwise Np.sub (map (Np.scale PSI_TO_PA) l1)
              (map (Np.scale PSI_TO_PA) l2)) as [delta|];
    destruct (Np.elementwise (sample_mdot cd y a1_in2 a2_in2 rho) l1 l2) as [r|];
    try discriminate IH; [|reflexivity].
  assert (IH' : map Np.nan_to_num (map F (map (fun d => Np.maximum d 0) delta)) = r)
    by congruence.
  cbn [map]. rewrite IH'. do 2 f_equal.
  destruct p1 as [|x1], p2 as [|x2]; try reflexivity.
  cbv beta iota zeta
      delta [F Np.scale Np.sub Np.lift2 Np.lift1 Np.maximum Np.sqrt Np.nan_to_num
             sample_mdot venturi_formula PSI_TO_PA IN2_TO_M2].
  replace (x1 * 6894.76 - x2 * 6894.76) with ((x1 - x2) * 6894.76) by lra.
  set (rad := 2 * rho * Rmax ((x1 - x2) * 6894.76) 0 /
              (1 - (a2_in2 * 0.00064516 / (a1_in2 * 0.00064516)) ^ 2)).
  unfold Np.Rltb. destruct (Rlt_dec rad 0) as [Hneg|Hpos]; cbv beta iota.
  - rewrite (sqrt_neg_0 rad) by lra. f_equal. ring.
  - reflexivity.
Qed.

Lemma masked_series (w w0 : window) (col : string) (mask : list bool) (ds : nat)
  (cells : list Pd.cell) :
  series w col mask ds = Some cells ->
  masked w col mask ds w0 = (Py.Normal cells, w0, []).
Proof.
  unfold series, masked.
  destruct (Pd.getitem (ctx_df w) col) as [data|]; [|discriminate].
  py_eval.
  destruct (Np.bool_index data mask) as [data'|]; [|discriminate].
  intros H. injection H as <-. reflexivity.
Qed.

Lemma calculate_and_plot_series (apply_extra_data : window -> list bool)
  (w : window) (a1 a2 cd y rho : R)
  (time p1_cells p2_cells : list Pd.cell) (p1_psi p2_psi mdot : list Np.float) :
  Str.is_empty (p1_col_var w) = false ->
  Str.is_empty (p2_col_var w) = false ->
  a1_var w = Py.Numeric a1 -> a2_var w = Py.Numeric a2 ->
  cd_var w = Py.Numeric cd -> y_var w = Py.Numeric y ->
  rho_var w = Py.Numeric rho ->
  0 < a2 -> a2 < a1 -> 0 < cd -> cd <= 1 ->
  series w (ctx_time_col w) (apply_extra_data w)
    (Nat.max (downsampling_slider w) 1) = Some time ->
  series w (p1_col_var w) (apply_extra_data w)
    (Nat.max (downsampling_slider w) 1) = Some p1_cells ->
  Pd.astype_float p1_cells = Some p1_psi ->
  series w (p2_col_var w) (apply_extra_data w)
    (Nat.max (downsampling_slider w) 1) = Some p2_cells ->
  Pd.astype_float p2_cells = Some p2_psi ->
  Np.elementwise (sample_mdot cd y a1 a2 rho) p1_psi p2_psi = Some mdot ->
  plot_frame (Py.state_of (_calculate_and_plot apply_extra_data w)) =
    Some (mk_plot time mdot) /\
  Py.escaped (Py.outcome_of (_calculate_and_plot apply_extra_data w)) = false.
Proof.
  intros H1 H2 Ha1 Ha2 Hcd Hy Hrho P2 P1 Pcd Pcd1 St S1 A1 S2 A2 Hm.
  pose proof (pipeline_is_sample_mdot cd y a1 a2 rho p1_psi p2_psi P2 P1) as Hp.
  rewrite Hm in Hp.
  unfold _calculate_and_plot. py_eval.
  rewrite H1, H2. cbn [orb]. py_eval.
  rewrite Ha1, Ha2, Hcd, Hy, Hrho. py_eval.
  rewrite (Rleb_false a1 0) by lra. rewrite (Rleb_false a2 0) by lra.
  cbn [orb]. rewrite (Rleb_false a1 a2) by lra.
  rewrite (Rleb_false cd 0) by lra. rewrite (Rltb_false 1 cd) by lra.
  cbn [orb]. py_eval.
  rewrite (masked_series w w _ _ _ _ St). py_eval.
  rewrite (masked_series w w _ _ _ _ S1). py_eval. rewrite A1. py_eval.
  rewrite (masked_series w w _ _ _ _ S2). py_eval. rewrite A2. py_eval.
  destruct (Np.elementwise Np.sub (map (Np.scale PSI_TO_PA) p1_psi)
              (map (Np.scale PSI_TO_PA) p2_psi)) as [delta|]; [|discriminate Hp].
  apply (f_equal (fun o => match o with Some l => l | None => [] end)) in Hp.
  cbv beta iota in Hp. py_eval. rewrite Hp.
  destruct (nanmax mdot); split; reflexivity.
Qed.

Lemma calculate_and_plot_domain_error (apply_extra_data : window -> list bool)
  (w : window) (a1 a2 cd y rho : R) :
  Str.is_empty (p1_col_var w) = false ->
  Str.is_empty (p2_col_var w) = false ->
  a1_var w = Py.Numeric a1 -> a2_var w = Py.Numeric a2 ->
  cd_var w = Py.Numeric cd -> y_var w = Py.Numeric y ->
  rho_var w = Py.Numeric rho ->
  ~ (0 < a2 < a1 /\ 0 < cd <= 1) ->
  exists msg : string,
    _calculate_and_plot apply_extra_data w =
      (Py.Returned, w, [Py.showerror_box "Error" msg]).
Proof.
  intros H1 H2 Ha1 Ha2 Hcd Hy Hrho Hbad.
  unfold _calculate_and_plot.
  unfold Py.try_except, Py.bind at 1. unfold Py.get at 1.
  rewrite H1, H2. cbn [orb].
  unfold Py.bind, Py.float. rewrite Ha1, Ha2, Hcd, Hy, Hrho. unfold Py.ret.
  unfold Np.Rleb, Np.Rltb, Py.showerror, Py.return_.
  destruct (Rle_dec a1 0); [eexists; reflexivity|].
  destruct (Rle_dec a2 0); [eexists; reflexivity|].
  destruct (Rle_dec a1 a2); [eexists; reflexivity|].
  destruct (Rle_dec cd 0); [eexists; reflexivity|].
  destruct (Rlt_dec 1 cd); [eexists; reflexivity|].
  exfalso. apply Hbad. lra.
Qed.

Lemma venturi_formula_clamped (cd y a1 a2 rho p1 p2 : R) :
  p1 <= p2 -> venturi_formula cd y a1 a2 rho p1 p2 = 0.
Proof.
  intros Hp. unfold venturi_formula. cbv zeta.
  rewrite Rmax_right by nra.
  replace (2 * rho * 0 / (1 - (a2 * 0.00064516 / (a1 * 0.00064516)) ^ 2))
    with 0 by (unfold Rdiv; ring).
  rewrite sqrt_0. ring.
Qed.

(** C5: with both pressure columns selected and numeric parameters such
    that 0 < A2 < A1 and 0 < Cd <= 1, [_calculate_and_plot] plots, for every
    sample of the masked and strided series,
    Cd*Y*A2*sqrt(2*rho*dP / (1 - (A2/A1)^2)) with A = area * 0.00064516 and
    dP = max((P1 - P2) * 6894.76, 0), so 0 when P1 <= P2 (and 0 for a sample
    with a missing pressure); where the radicand is negative (a negative
    density) numpy's NaN is replaced by 0, which is also the value of the
    formula with the square root of a negative number read as 0.  Parameters
    that violate 0 < A2 < A1 or 0 < Cd <= 1 give an error box and no plot. *)
Theorem venturi_spec (apply_extra_data : window -> list bool)
  (w : window) (a1 a2 cd y rho : R) :
  Str.is_empty (p1_col_var w) = false ->
  Str.is_empty (p2_col_var w) = false ->
  a1_var w = Py.Numeric a1 -> a2_var w = Py.Numeric a2 ->
  cd_var w = Py.Numeric cd -> y_var w = Py.Numeric y ->
  rho_var w = Py.Numeric rho ->
  (0 < a2 < a1 -> 0 < cd <= 1 ->
   forall (time p1_cells p2_cells : list Pd.cell) (p1_psi p2_psi : list Np.float),
     series w (ctx_time_col w) (apply_extra_data w)
       (Nat.max (downsampling_slider w) 1) = Some time ->
     series w (p1_col_var w) (apply_extra_data w)
       (Nat.max (downsampling_slider w) 1) = Some p1_cells ->
     Pd.astype_float p1_cells = Some p1_psi ->
     series w (p2_col_var w) (apply_extra_data w)
       (Nat.max (downsampling_slider w) 1) = Some p2_cells ->
     Pd.astype_float p2_cells = Some p2_psi ->
     List.length p1_psi = List.length p2_psi ->
     exists mdot : list Np.float,
       Np.elementwise (sample_mdot cd y a1 a2 rho) p1_psi p2_psi = Some mdot /\
       plot_frame (Py.state_of (_calculate_and_plot apply_extra_data w)) =
         Some (mk_plot time mdot)) /\
  (forall p1 p2 : R,
     sample_mdot cd y a1 a2 rho (Np.fin p1) (Np.fin p2) =
       Np.fin (cd * y * (a2 * 0.00064516) *
               sqrt (2 * rho * Rmax ((p1 - p2) * 6894.76) 0 /
                     (1 - (a2 * 0.00064516 / (a1 * 0.00064516)) ^ 2))) /\
     (p1 <= p2 -> sample_mdot cd y a1 a2 rho (Np.fin p1) (Np.fin p2) = Np.fin 0)) /\
  (~ (0 < a2 < a1 /\ 0 < cd <= 1) ->
   exists msg : string,
     _calculate_and_plot apply_extra_data w =
       (Py.Returned, w, [Py.showerror_box "Error" msg])).
Proof.
  intros H1 H2 Ha1 Ha2 Hcd Hy Hrho. split; [|split].
  - intros [P2 P1] [Pcd Pcd1] time p1_cells p2_cells p1_psi p2_psi St S1 A1 S2 A2 Hlen.
    assert (Hex : exists mdot,
               Np.elementwise (sample_mdot cd y a1 a2 rho) p1_psi p2_psi = Some mdot).
    { clear -Hlen. revert p2_psi Hlen.
      induction p1_psi as [|p l IH]; intros [|q l2] Hlen; try discriminate Hlen.
      - exists []. reflexivity.
      - injection Hlen as Hlen. destruct (IH l2 Hlen) as [r Hr].
        cbn. rewrite Hr. eexists. reflexivity. }
    destruct Hex as [mdot Hm]. exists mdot. split; [exact Hm|].
    eapply calculate_and_plot_series; eassumption.
  - intros p1 p2. split; [reflexivity|].
    intros Hp. cbn. f_equal. apply venturi_formula_clamped. exact Hp.
  - intros Hbad. eapply calculate_and_plot_domain_error; eassumption.
Qed.

Lemma venturi_spec_witness :
  exists mdot : list Np.float,
    Np.elementwise (sample_mdot 0.98 1 0.5 0.25 1141) [Np.fin 100] [Np.fin 80] =
      Some mdot /\
    plot_frame (Py.state_of (_calculate_and_plot all_rows golden)) =
      Some (mk_plot [Pd.Number 0] mdot).
Proof.
  destruct (venturi_spec all_rows golden 0.5 0.25 0.98 1 1141
              eq_refl eq_refl eq_refl eq_refl eq_refl eq_refl eq_refl) as (H & _).
  apply (H ltac:(lra) ltac:(lra) [Pd.Number 0] [Pd.Number 100] [Pd.Number 80]);
    reflexivity.
Defined.

End VenturiFacts.

(** ** Error atomicity *)

Module AtomicityFacts.
Import AtomicitySpec.

Lemma try_except_no_escape {S A : Type} (body : Py.M S A) (handler : Py.exn -> Py.M S A) :
  (forall (e : Py.exn) (s : S), Py.escaped (Py.outcome_of (handler e s)) = false) ->
  forall s : S, Py.escaped (Py.outcome_of (Py.try_except body handler s)) = false.
Proof.
  intros H s. unfold Py.try_except.
  destruct (body s) as [[[a| |e] s'] shown]; try reflexivity.
  specialize (H e s'). destruct (handler e s') as [[r s''] shown']. exact H.
Qed.

Lemma cda_never_escapes (w : CdACalculatorWindow.window) :
  Py.escaped (Py.outcome_of (CdACalculatorWindow._calculate_cda w)) = false.
Proof.
  apply try_except_no_escape. intros [m|k| | | | |] s; reflexivity.
Qed.

Lemma setpoint_never_escapes (w : CdACalculatorWindow.window) :
  Py.escaped (Py.outcome_of (CdACalculatorWindow._calculate_setpoint w)) = false.
Proof.
  apply try_except_no_escape. intros [m|k| | | | |] s; reflexivity.
Qed.

Lemma venturi_never_escapes (apply_extra_data : VenturiMdotWindow.window -> list bool)
  (w : VenturiMdotWindow.window) :
  Py.escaped
    (Py.outcome_of (VenturiMdotWindow._calculate_and_plot apply_extra_data w)) = false.
Proof.
  apply try_except_no_escape. intros [m|k| | | | |] s; reflexivity.
Qed.

Lemma cda_aborts (w : CdACalculatorWindow.window) :
  ~ valid_cda_inputs w -> aborted w (CdACalculatorWindow._calculate_cda w).
Proof.
  intros Hbad. unfold aborted, CdACalculatorWindow._calculate_cda. py_unfold.
  destruct (CdACalculatorWindow.p_high_var w) as [ph|s1] eqn:E1;
    [|repeat split; eexists; reflexivity].
  destruct (CdACalculatorWindow.p_low_var w) as [pl|s2] eqn:E2;
    [|repeat split; eexists; reflexivity].
  destruct (CdACalculatorWindow.rho_var w) as [rho|s3] eqn:E3;
    [|repeat split; eexists; reflexivity].
  destruct (CdACalculatorWindow.calculated_mdot w) as [mdot|];
    [|repeat split; eexists; reflexivity].
  unfold Np.Rleb.
  destruct (Rle_dec _ 0) as [Hd|Hd]; [repeat split; eexists; reflexivity|].
  destruct (Rle_dec rho 0) as [Hr|Hr]; [repeat split; eexists; reflexivity|].
  exfalso. apply Hbad. exists ph, pl, rho.
  unfold CdACalculatorWindow.PSI_TO_PA in Hd. repeat split; try assumption; lra.
Qed.

Lemma setpoint_aborts (w : CdACalculatorWindow.window) :
  ~ valid_setpoint_inputs w -> aborted w (CdACalculatorWindow._calculate_setpoint w).
Proof.
  intros Hbad. unfold aborted, CdACalculatorWindow._calculate_setpoint. py_unfold.
  destruct (CdACalculatorWindow.setpoint_cda_var w) as [cda|s1] eqn:E1;
    [|repeat split; eexists; reflexivity].
  destruct (CdACalculatorWindow.setpoint_mdot_var w) as [mdot|s2] eqn:E2;
    [|repeat split; eexists; reflexivity].
  destruct (CdACalculatorWindow.setpoint_rho_var w) as [rho|s3] eqn:E3;
    [|repeat split; eexists; reflexivity].
  destruct (CdACalculatorWindow.manifold_p_var w) as [man|s4] eqn:E4;
    [|repeat split; eexists; reflexivity].
  unfold Np.Rleb.
  destruct (Rle_dec cda 0) as [Hd|Hd]; [repeat split; eexists; reflexivity|].
  destruct (Rle_dec rho 0) as [Hr|Hr]; [repeat split; eexists; reflexivity|].
  exfalso. apply Hbad. exists cda, mdot, rho, man.
  repeat split; try assumption; lra.
Qed.

Lemma venturi_aborts (apply_extra_data : VenturiMdotWindow.window -> list bool)
  (w : VenturiMdotWindow.window) :
  ~ valid_venturi_inputs w ->
  aborted w (VenturiMdotWindow._calculate_and_plot apply_extra_data w).
Proof.
  intros Hbad. unfold aborted, VenturiMdotWindow._calculate_and_plot. py_eval.
  destruct (Str.is_empty (VenturiMdotWindow.p1_col_var w)
            || Str.is_empty (VenturiMdotWindow.p2_col_var w));
    [run_simpl; split; [|split; [eexists|]]; reflexivity|].
  destruct (VenturiMdotWindow.a1_var w) as [a1|s1] eqn:E1; py_eval;
    [|run_simpl; split; [|split; [eexists|]]; reflexivity].
  destruct (VenturiMdotWindow.a2_var w) as [a2|s2] eqn:E2; py_eval;
    [|run_simpl; split; [|split; [eexists|]]; reflexivity].
  destruct (VenturiMdotWindow.cd_var w) as [cd|s3] eqn:E3; py_eval;
    [|run_simpl; split; [|split; [eexists|]]; reflexivity].
  destruct (VenturiMdotWindow.y_var w) as [y|s4] eqn:E4; py_eval;
    [|run_simpl; split; [|split; [eexists|]]; reflexivity].
  destruct (VenturiMdotWindow.rho_var w) as [rho|s5] eqn:E5; py_eval;
    [|run_simpl; split; [|split; [eexists|]]; reflexivity].
  unfold Np.Rleb, Np.Rltb.
  destruct (Rle_dec a1 0); cbn [orb]; py_eval;
    [run_simpl; split; [|split; [eexists|]]; reflexivity|].
  destruct (Rle_dec a2 0); cbn [orb]; py_eval;
    [run_simpl; split; [|split; [eexists|]]; reflexivity|].
  destruct (Rle_dec a1 a2); py_eval;
    [run_simpl; split; [|split; [eexists|]]; reflexivity|].
  destruct (Rle_dec cd 0); cbn [orb]; py_eval;
    [run_simpl; split; [|split; [eexists|]]; reflexivity|].
  destruct (Rlt_dec 1 cd); cbn [orb]; py_eval;
    [run_simpl; split; [|split; [eexists|]]; reflexivity|].
  exfalso. apply Hbad. exists a1, a2, cd, y, rho.
  repeat split; try assumption; lra.
Qed.

(** For each of the three calculations, when an entry does not read as a
    number, or reads as a (finite) number that fails a validity test of the
    handler, the handler shows exactly one message box and leaves the window
    exactly as it was (stored CdA, result labels and plot included); and on
    every such input, valid or not, no exception leaves the handler. *)
Theorem error_atomicity :
  (forall w : CdACalculatorWindow.window,
     ~ valid_cda_inputs w -> aborted w (CdACalculatorWindow._calculate_cda w)) /\
  (forall w : CdACalculatorWindow.window,
     ~ valid_setpoint_inputs w ->
     aborted w (CdACalculatorWindow._calculate_setpoint w)) /\
  (forall (apply_extra_data : VenturiMdotWindow.window -> list bool)
          (w : VenturiMdotWindow.window),
     ~ valid_venturi_inputs w ->
     aborted w (VenturiMdotWindow._calculate_and_plot apply_extra_data w)) /\
  (forall w : CdACalculatorWindow.window,
     Py.escaped (Py.outcome_of (CdACalculatorWindow._calculate_cda w)) = false /\
     Py.escaped (Py.outcome_of (CdACalculatorWindow._calculate_setpoint w)) = false) /\
  (forall (apply_extra_data : VenturiMdotWindow.window -> list bool)
          (w : VenturiMdotWindow.window),
     Py.escaped
       (Py.outcome_of (VenturiMdotWindow._calculate_and_plot apply_extra_data w)) =
     false).
Proof.
  split; [exact cda_aborts|]. split; [exact setpoint_aborts|].
  split; [exact venturi_aborts|]. split.
  - intros w. split; [apply cda_never_escapes|apply setpoint_never_escapes].
  - exact venturi_never_escapes.
Qed.

Lemma error_atomicity_witness :
  CdACalculatorWindow.calculated_cda
    (Py.state_of (CdACalculatorWindow._calculate_cda stale_window)) = Some 6e-6.
Proof.
  assert (Hbad : ~ valid_cda_inputs stale_window).
  { intros (ph & pl & rho & _ & _ & H & _). discriminate H. }
  destruct (proj1 error_atomicity stale_window Hbad) as (Hst & _).
  rewrite Hst. reflexivity.
Defined.

(** C9 fails on the code for an entry that reads as NaN: [float("nan")]
    succeeds and NaN satisfies neither [delta_p <= 0] nor [rho <= 0], so with
    a density entry "nan" [_calculate_cda] shows no message box, overwrites
    the stored CdA (None before) with NaN and shows NaN in the result label;
    [_calculate_setpoint] does the same with a CdA entry "nan". *)
Theorem nan_entry_is_computed_with :
  (Py.dialogs_of (Binary64._calculate_cda Binary64.nan_density) = [] /\
   Py.outcome_of (Binary64._calculate_cda Binary64.nan_density) = Py.Normal tt /\
   Binary64.calculated_cda Binary64.nan_density = None /\
   exists cda : PrimFloat.float,
     Binary64.calculated_cda
       (Py.state_of (Binary64._calculate_cda Binary64.nan_density)) = Some cda /\
     Binary64.shown
       (Binary64.result_label
          (Py.state_of (Binary64._calculate_cda Binary64.nan_density))) = Some cda /\
     PrimFloat.is_nan cda = true) /\
  (Py.dialogs_of (Binary64._calculate_setpoint Binary64.nan_cda) = [] /\
   Binary64.shown (Binary64.setpoint_result_label Binary64.nan_cda) = None /\
   exists p_set : PrimFloat.float,
     Binary64.shown
       (Binary64.setpoint_result_label
          (Py.state_of (Binary64._calculate_setpoint Binary64.nan_cda))) = Some p_set /\
     PrimFloat.is_nan p_set = true).
Proof.
  split.
  - split; [vm_compute; reflexivity|]. split; [vm_compute; reflexivity|].
    split; [reflexivity|].
    eexists. split; [vm_compute; reflexivity|].
    split; vm_compute; reflexivity.
  - split; [vm_compute; reflexivity|]. split; [reflexivity|].
    eexists. split; vm_compute; reflexivity.
Qed.

End AtomicityFacts.

(** ** The derived-rate estimator *)

Module RateFacts.
Import CdAPlotWindow RateSpec.

(** *** Boolean masks over the rows of a table *)

Lemma bool_index_map {A B : Type} (g : A -> B) (f : A -> bool) (l : list A) :
  Np.bool_index (map g l) (map f l) = Some (map g (filter f l)).
Proof.
  induction l as [|x l IH]; [reflexivity|].
  cbn. rewrite IH. destruct (f x); reflexivity.
Qed.

Lemma elementwise_map {A B C D : Type} (h : B -> C -> D) (g1 : A -> B) (g2 : A -> C)
  (l : list A) :
  Np.elementwise h (map g1 l) (map g2 l) = Some (map (fun x => h (g1 x) (g2 x)) l).
Proof.
  induction l as [|x l IH]; [reflexivity|]. cbn. rewrite IH. reflexivity.
Qed.

Lemma combine_fst {A B : Type} (a : list A) (b : list B) :
  List.length a = List.length b -> map fst (combine a b) = a.
Proof.
  revert b. induction a as [|x a IH]; intros [|y b] H; try discriminate H;
    [reflexivity|].
  cbn. f_equal. apply IH. injection H as H. exact H.
Qed.

Lemma combine_snd {A B : Type} (a : list A) (b : list B) :
  List.length a = List.length b -> map snd (combine a b) = b.
Proof.
  revert b. induction a as [|x a IH]; intros [|y b] H; try discriminate H;
    [reflexivity|].
  cbn. f_equal. apply IH. injection H as H. exact H.
Qed.

Lemma count_map {A : Type} (f : A -> bool) (l : list A) :
  Np.count (map f l) = List.length (filter f l).
Proof.
  unfold Np.count. induction l as [|x l IH]; [reflexivity|].
  cbn. destruct (f x); cbn; rewrite IH; reflexivity.
Qed.

Lemma any_false_count (mask : list bool) : Np.any mask = false -> Np.count mask = 0%nat.
Proof.
  unfold Np.any, Np.count. induction mask as [|b m IH]; [reflexivity|].
  cbn. destruct b; [discriminate|]. exact IH.
Qed.

(** *** The rows that reach the fit *)

Lemma in_window_fin (start end_ t : R) (wt : Np.float) :
  in_window start end_ (Np.fin t, wt) = (start <=? t) && (t <=? end_).
Proof. reflexivity. Qed.

Lemma reals_of_valid_rows (start end_ : R) (rows : list (Np.float * Np.float)) :
  let kept := filter not_nan (filter (in_window start end_) rows) in
  Np.reals (map fst kept) = map fst (valid_samples start end_ rows) /\
  Np.reals (map snd kept) = map snd (valid_samples start end_ rows) /\
  List.length kept = List.length (valid_samples start end_ rows).
Proof.
  cbv zeta. induction rows as [|[t wt] rows IH]; [repeat split|].
  destruct IH as (IH1 & IH2 & IH3).
  destruct t as [|t]; [exact (conj IH1 (conj IH2 IH3))|].
  cbn [filter valid_samples]. rewrite in_window_fin.
  destruct ((start <=? t) && (t <=? end_)).
  - destruct wt as [|wt]; cbn [filter not_nan fst snd Np.isnan orb negb];
      [exact (conj IH1 (conj IH2 IH3))|].
    cbn [map Np.reals fst snd List.length]. rewrite IH1, IH2, IH3. repeat split.
  - destruct wt; exact (conj IH1 (conj IH2 IH3)).
Qed.

Lemma filter_shorter {A : Type} (f : A -> bool) (l : list A) :
  (List.length (filter f l) <= List.length l)%nat.
Proof.
  induction l as [|x l IH]; [apply le_n|].
  cbn. destruct (f x); cbn; lia.
Qed.

(** [_calculate_mdot] on a window with a selection, a weight column and the
    stored time data: what it returns, in terms of the valid samples. *)
Lemma calculate_mdot_cases (lstsq_rank_deficient : list R -> list R -> option (R * R))
  (w : window) (start end_ : R) (cells : list Pd.cell) (time : list Np.float) :
  start_time w = Some start -> end_time w = Some end_ ->
  Str.is_empty (weight_col w) = false ->
  time_data_numeric w = Some time ->
  Pd.getitem (df w) (weight_col w) = Some cells ->
  List.length time = List.length cells ->
  let samples := valid_samples start end_ (combine time (Pd.to_numeric cells)) in
  _calculate_mdot lstsq_rank_deficient w =
    if (List.length samples <? 2)%nat then None
    else if Req_dec_T (Np.fit_denominator (map fst samples)) 0
         then match lstsq_rank_deficient (map fst samples) (map snd samples) with
              | Some (slope, _) => Some (- slope * LBS_TO_KG)
              | None => None
              end
         else Some (- Np.fit_slope (map fst samples) (map snd samples) * LBS_TO_KG).
Proof.
  intros Hs He Hwc Ht Hg Hlen samples.
  unfold _calculate_mdot. rewrite Hs, He, Hwc, Ht, Hg.
  set (weight := Pd.to_numeric cells) in *.
  assert (Hlen' : List.length time = List.length weight).
  { unfold weight, Pd.to_numeric. rewrite length_map. exact Hlen. }
  set (rows := combine time weight) in *.
  pose proof (combine_fst time weight Hlen') as Efst.
  pose proof (combine_snd time weight Hlen') as Esnd.
  fold rows in Efst, Esnd.
  set (P := filter (in_window start end_) rows).
  set (Q := filter not_nan P).
  assert (Hmask : map (fun t => Np.ge t start && Np.le t end_) time =
                  map (in_window start end_) rows).
  { rewrite <- Efst at 1. rewrite map_map. reflexivity. }
  rewrite Hmask.
  assert (E1 : Np.bool_index time (map (in_window start end_) rows) = Some (map fst P)).
  { rewrite <- Efst at 1. apply bool_index_map. }
  assert (E2 : Np.bool_index weight (map (in_window start end_) rows) = Some (map snd P)).
  { rewrite <- Esnd at 1. apply bool_index_map. }
  rewrite E1, E2.
  assert (E3 : Np.elementwise (fun t w0 => negb (Np.isnan t || Np.isnan w0))
                 (map fst P) (map snd P) = Some (map not_nan P)).
  { rewrite elementwise_map. reflexivity. }
  rewrite E3.
  rewrite (bool_index_map fst not_nan P), (bool_index_map snd not_nan P).
  fold Q. rewrite count_map. fold P.
  destruct (reals_of_valid_rows start end_ rows) as (R1 & R2 & R3).
  fold P in R1, R2, R3. fold Q in R1, R2, R3. fold samples in R1, R2, R3.
  rewrite length_map, R3.
  assert (HQP : (List.length samples <= List.length P)%nat).
  { rewrite <- R3. apply filter_shorter. }
  destruct (negb (Np.any (map (in_window start end_) rows))
            || (List.length P <? 2)%nat) eqn:Hearly.
  - assert (Hsmall : (List.length samples <? 2)%nat = true).
    { apply Nat.ltb_lt. apply orb_true_iff in Hearly as [Hany|Hcnt].
      - apply negb_true_iff in Hany. apply any_false_count in Hany.
        rewrite count_map in Hany. fold P in Hany. lia.
      - apply Nat.ltb_lt in Hcnt. lia. }
    rewrite Hsmall. reflexivity.
  - destruct (List.length samples <? 2)%nat; [reflexivity|].
    unfold Np.polyfit1. rewrite R1, R2.
    destruct (Req_dec_T (Np.fit_denominator (map fst samples)) 0); [reflexivity|].
    reflexivity.
Qed.

(** *** Least squares *)

Lemma least_squares_quadratic (n St Sw Stt Stw Sww a b : R) :
  0 < n -> 0 < n * Stt - St * St ->
  let a0 := (n * Stw - St * Sw) / (n * Stt - St * St) in
  let b0 := (Sw - a0 * St) / n in
  Sww - 2 * a0 * Stw - 2 * b0 * Sw + a0 * a0 * Stt + 2 * a0 * b0 * St + n * (b0 * b0)
  <= Sww - 2 * a * Stw - 2 * b * Sw + a * a * Stt + 2 * a * b * St + n * (b * b).
Proof.
  intros Hn HD a0 b0.
  assert (N2 : a0 * St + n * b0 = Sw) by (unfold b0; field; lra).
  assert (N1 : a0 * Stt + b0 * St = Stw).
  { unfold b0, a0. field. lra. }
  set (u := a - a0). set (v := b - b0).
  assert (Hdiff :
    (Sww - 2 * a * Stw - 2 * b * Sw + a * a * Stt + 2 * a * b * St + n * (b * b)) -
    (Sww - 2 * a0 * Stw - 2 * b0 * Sw + a0 * a0 * Stt + 2 * a0 * b0 * St + n * (b0 * b0))
    = Stt * (u * u) + 2 * St * (u * v) + n * (v * v)).
  { rewrite <- N1, <- N2. unfold u, v. ring. }
  assert (Hsq : n * (Stt * (u * u) + 2 * St * (u * v) + n * (v * v)) =
                (n * v + St * u) * (n * v + St * u) + (n * Stt - St * St) * (u * u))
    by ring.
  assert (Hnonneg : 0 <= n * (Stt * (u * u) + 2 * St * (u * v) + n * (v * v))).
  { rewrite Hsq. apply Rplus_le_le_0_compat.
    - apply Rle_0_sqr.
    - apply Rmult_le_pos; [lra|apply Rle_0_sqr]. }
  assert (Hq : 0 <= Stt * (u * u) + 2 * St * (u * v) + n * (v * v)).
  { apply Rmult_le_reg_l with n; [exact Hn|]. rewrite Rmult_0_r. exact Hnonneg. }
  lra.
Qed.

Lemma dot_map {A : Type} (f g : A -> R) (l : list A) :
  Np.dot (map f l) (map g l) = Np.sum (map (fun p => f p * g p) l).
Proof.
  unfold Np.dot. induction l as [|x l IH]; [reflexivity|].
  cbn [map combine Np.sum fst snd]. rewrite IH. reflexivity.
Qed.

Lemma sse_expand (a b : R) (samples : list (R * R)) :
  sse a b samples =
    Np.dot (map snd samples) (map snd samples)
    - 2 * a * Np.dot (map fst samples) (map snd samples)
    - 2 * b * Np.sum (map snd samples)
    + a * a * Np.dot (map fst samples) (map fst samples)
    + 2 * a * b * Np.sum (map fst samples)
    + INR (List.length samples) * (b * b).
Proof.
  rewrite !dot_map. unfold sse.
  induction samples as [|[t wt] l IH].
  - cbn. ring.
  - cbn [map Np.sum fst snd List.length]. rewrite S_INR, IH. ring.
Qed.

Lemma spread_expand (c : R) (samples : list (R * R)) :
  Np.sum (map (fun p => (fst p - c) * (fst p - c)) samples) =
    Np.dot (map fst samples) (map fst samples)
    - 2 * c * Np.sum (map fst samples)
    + INR (List.length samples) * (c * c).
Proof.
  rewrite dot_map.
  induction samples as [|[t wt] l IH].
  - cbn. ring.
  - cbn [map Np.sum fst snd List.length]. rewrite S_INR, IH. ring.
Qed.

Lemma spread_nonneg (c : R) (samples : list (R * R)) :
  0 <= Np.sum (map (fun p => (fst p - c) * (fst p - c)) samples).
Proof.
  induction samples as [|p l IH]; [cbn; lra|].
  cbn [map Np.sum]. pose proof (Rle_0_sqr (fst p - c)) as H. unfold Rsqr in H. lra.
Qed.

Lemma spread_pos (c : R) (samples : list (R * R)) (p : R * R) :
  In p samples -> fst p <> c ->
  0 < Np.sum (map (fun p => (fst p - c) * (fst p - c)) samples).
Proof.
  induction samples as [|q l IH]; intros Hin Hne; [destruct Hin|].
  cbn [map Np.sum]. destruct Hin as [->|Hin].
  - pose proof (spread_nonneg c l) as H0.
    assert (0 < (fst p - c) * (fst p - c)).
    { assert (Hd : fst p - c <> 0) by lra.
      pose proof (Rsqr_pos_lt _ Hd) as H. unfold Rsqr in H. exact H. }
    lra.
  - pose proof (IH Hin Hne) as H1.
    pose proof (Rle_0_sqr (fst q - c)) as H2. unfold Rsqr in H2. lra.
Qed.

(** With two different times among the samples the normal equations have
    a positive determinant. *)
Lemma denominator_pos (samples : list (R * R)) :
  time_varies samples -> 0 < Np.fit_denominator (map fst samples).
Proof.
  intros (p & q & Hp & Hq & Hne).
  assert (Hn : 0 < INR (List.length samples)).
  { destruct samples; [destruct Hp|]. apply lt_0_INR. cbn. lia. }
  set (n := INR (List.length samples)) in *.
  set (St := Np.sum (map fst samples)).
  set (c := St / n).
  assert (Hspread : 0 < Np.sum (map (fun p => (fst p - c) * (fst p - c)) samples)).
  { destruct (Req_dec_T (fst p) c) as [E|E].
    - apply spread_pos with q; [exact Hq|]. rewrite <- E. intros H. apply Hne. symmetry. exact H.
    - apply spread_pos with p; assumption. }
  rewrite spread_expand in Hspread. fold St n in Hspread.
  unfold Np.fit_denominator. rewrite length_map. fold St n.
  assert (Hc : n * c = St) by (unfold c; field; lra).
  assert (E : n * Np.dot (map fst samples) (map fst samples) - St * St =
              n * (Np.dot (map fst samples) (map fst samples) - 2 * c * St + n * (c * c))).
  { rewrite <- Hc. ring. }
  rewrite E. apply Rmult_lt_0_compat; assumption.
Qed.

(** The normal-equation line minimises the squared residuals. *)
Lemma fit_is_least_squares (samples : list (R * R)) (a b : R) :
  time_varies samples ->
  sse (Np.fit_slope (map fst samples) (map snd samples))
      (Np.fit_intercept (map fst samples) (map snd samples)) samples
  <= sse a b samples.
Proof.
  intros Hv. pose proof (denominator_pos samples Hv) as HD.
  assert (Hn : 0 < INR (List.length samples)).
  { destruct Hv as (p & _ & Hp & _). destruct samples; [destruct Hp|].
    apply lt_0_INR. cbn. lia. }
  rewrite !sse_expand.
  unfold Np.fit_intercept, Np.fit_slope. unfold Np.fit_denominator in *.
  rewrite length_map in *.
  apply least_squares_quadratic; assumption.
Qed.

Lemma valid_samples_in (start end_ : R) (rows : list (Np.float * Np.float)) (t wt : R) :
  In (t, wt) (valid_samples start end_ rows) <->
  In (Np.fin t, Np.fin wt) rows /\ start <= t <= end_.
Proof.
  induction rows as [|[[|t'] [|wt']] rows IH]; cbn [valid_samples In].
  - tauto.
  - rewrite IH. split; [intros [H1 H2]; split; [right|]; assumption|].
    intros [[H|H] H2]; [discriminate|tauto].
  - rewrite IH. split; [intros [H1 H2]; split; [right|]; assumption|].
    intros [[H|H] H2]; [discriminate|tauto].
  - rewrite IH. split; [intros [H1 H2]; split; [right|]; assumption|].
    intros [[H|H] H2]; [discriminate|tauto].
  - unfold Np.Rleb.
    destruct (Rle_dec start t') as [H1|H1], (Rle_dec t' end_) as [H2|H2];
      cbn [andb In]; rewrite IH; split;
      try (intros [H3 H4]; split; [right|]; assumption);
      try (intros [[H3|H3] H4]; [injection H3 as -> ->; lra|tauto]).
    + intros [H|[H3 H4]]; [injection H as <- <-; split; [left; reflexivity|lra]|].
      split; [right|]; assumption.
    + intros [[H3|H3] H4]; [left; injection H3 as -> ->; reflexivity|right; tauto].
Qed.

(** C1: on a window with a selection (start, end), a weight column and the
    stored time data, the valid samples are the rows whose time and weight
    are both numbers with start <= time <= end.  With fewer than 2 of them
    [_calculate_mdot] returns None.  With 2 or more and times that are not
    all equal it returns -slope * 0.453592, a real number, where slope is
    defined (the determinant of the normal equations is not 0) and, with its
    intercept, minimises the sum of squared residuals of weight against time.
    When all times are equal the result is -slope * 0.453592 for whatever
    slope numpy's solver returns on the rank-deficient system, or None if it
    raises. *)
Theorem derived_rate_spec (lstsq_rank_deficient : list R -> list R -> option (R * R))
  (w : window) (start end_ : R) (cells : list Pd.cell) (time : list Np.float) :
  start_time w = Some start -> end_time w = Some end_ ->
  Str.is_empty (weight_col w) = false ->
  time_data_numeric w = Some time ->
  Pd.getitem (df w) (weight_col w) = Some cells ->
  List.length time = List.length cells ->
  let samples := valid_samples start end_ (combine time (Pd.to_numeric cells)) in
  let slope := Np.fit_slope (map fst samples) (map snd samples) in
  let intercept := Np.fit_intercept (map fst samples) (map snd samples) in
  (forall t wt : R,
     In (t, wt) samples <->
     In (Np.fin t, Np.fin wt) (combine time (Pd.to_numeric cells)) /\
     start <= t <= end_) /\
  ((List.length samples < 2)%nat ->
     _calculate_mdot lstsq_rank_deficient w = None) /\
  ((2 <= List.length samples)%nat -> time_varies samples ->
     _calculate_mdot lstsq_rank_deficient w = Some (- slope * 0.453592) /\
     Np.fit_denominator (map fst samples) <> 0 /\
     forall a b : R, sse slope intercept samples <= sse a b samples) /\
  ((2 <= List.length samples)%nat ->
   Np.fit_denominator (map fst samples) = 0 ->
     _calculate_mdot lstsq_rank_deficient w =
       match lstsq_rank_deficient (map fst samples) (map snd samples) with
       | Some (s, _) => Some (- s * 0.453592)
       | None => None
       end).
Proof.
  intros Hs He Hwc Ht Hg Hlen samples slope intercept.
  pose proof (calculate_mdot_cases lstsq_rank_deficient w start end_ cells time
                Hs He Hwc Ht Hg Hlen) as E.
  cbv zeta in E. fold samples in E.
  split; [|split; [|split]].
  - intros t wt. apply valid_samples_in.
  - intros Hfew. rewrite E.
    destruct (Nat.ltb_spec (List.length samples) 2) as [_|Hge]; [reflexivity|lia].
  - intros Hmany Hv. pose proof (denominator_pos samples Hv) as HD.
    split; [|split].
    + rewrite E.
      destruct (Nat.ltb_spec (List.length samples) 2) as [Hlt|_]; [lia|].
      destruct (Req_dec_T (Np.fit_denominator (map fst samples)) 0) as [E0|_]; [lra|].
      reflexivity.
    + lra.
    + intros a b. apply fit_is_least_squares. exact Hv.
  - intros Hmany HD. rewrite E.
    destruct (Nat.ltb_spec (List.length samples) 2) as [Hlt|_]; [lia|].
    destruct (Req_dec_T (Np.fit_denominator (map fst samples)) 0) as [_|Hne];
      [reflexivity|contradiction].
Qed.

Lemma draining_samples :
  valid_samples 0 1 (combine [Np.fin 0; Np.fin 1]
                       (Pd.to_numeric [Pd.Number 10; Pd.Number 8])) =
  [(0, 10); (1, 8)].
Proof.
  cbn [Pd.to_numeric map combine valid_samples].
  rewrite !Rleb_true by lra. reflexivity.
Defined.

Lemma derived_rate_spec_witness :
  _calculate_mdot no_answer draining =
    Some (- Np.fit_slope [0; 1] [10; 8] * 0.453592).
Proof.
  destruct (derived_rate_spec no_answer draining 0 1
              [Pd.Number 10; Pd.Number 8] [Np.fin 0; Np.fin 1]
              eq_refl eq_refl eq_refl eq_refl eq_refl eq_refl)
    as (_ & _ & H & _).
  rewrite draining_samples in H.
  destruct H as (H & _).
  - cbn. lia.
  - exists (0, 10), (1, 8). cbn. repeat split; auto; lra.
  - exact H.
Defined.

End RateFacts.

(** ** Plot decimation *)

Module DecimationFacts.
Import CdAPlotWindow DecimationSpec.

(** C7, the bound on the plotted points: a log of 3999 valid rows is plotted
    with step 3999 // 2000 = 1, that is in full, 3999 points where
    [MAX_PLOT_POINTS] is 2000. *)
Lemma plot_of_3999_rows_is_not_decimated :
  plotted_points
    (Py.state_of (_create_plot (SelectorSpec.fresh (long_table 3999) "Time" "Pressure" "")))
  = 3999%nat /\
  (MAX_PLOT_POINTS < 3999)%nat.
Proof.
  split; [vm_compute; reflexivity|unfold MAX_PLOT_POINTS; lia].
Qed.

Lemma calculate_mdot_ignores_plot
  (lstsq_rank_deficient : list R -> list R -> option (R * R))
  (w : window) (f : option figure) (a c : bool) :
  _calculate_mdot lstsq_rank_deficient (set_cid c (set_fig f (set_ax2 a w))) =
  _calculate_mdot lstsq_rank_deficient w.
Proof. destruct w. reflexivity. Qed.

(** When the plot is created (no error box), the window holds the whole
    time column, and the rate computed afterwards is the rate computed from
    that column on the window as it was, whatever was decimated for drawing. *)
Lemma rate_after_create_plot
  (lstsq_rank_deficient : list R -> list R -> option (R * R)) (w : window) :
  Py.dialogs_of (_create_plot w) = [] ->
  exists time : list Np.float,
    full_time (df w) (time_col w) = Some time /\
    time_data_numeric (Py.state_of (_create_plot w)) = Some time /\
    _calculate_mdot lstsq_rank_deficient (Py.state_of (_create_plot w)) =
    _calculate_mdot lstsq_rank_deficient (set_time_data_numeric (Some time) w).
Proof.
  unfold full_time, _create_plot, _prepare_plot_data, _cleanup_and_close.
  py_eval.
  repeat (destruct_scrutinee; py_eval);
    run_simpl; intros Hd; try discriminate Hd;
    eexists; (split; [reflexivity|]); split;
    solve [destruct w; reflexivity].
Qed.

Lemma rate_after_create_plot_witness :
  exists time : list Np.float,
    time_data_numeric
      (Py.state_of
         (_create_plot (SelectorSpec.fresh SelectorSpec.two_rows "Time" "Pressure" "Weight")))
    = Some time /\
    full_time SelectorSpec.two_rows "Time" = Some time.
Proof.
  destruct (rate_after_create_plot RateSpec.no_answer
              (SelectorSpec.fresh SelectorSpec.two_rows "Time" "Pressure" "Weight"))
    as (time & Hfull & Hstored & _).
  - vm_compute. reflexivity.
  - exists time. split; [exact Hstored|exact Hfull].
Defined.

End DecimationFacts.

(** ** More on the time-range selector *)

Module SelectorMore.
Import CdAPlotWindow SelectorSpec SelectorMoreSpec.

Lemma reset_result (w : window) :
  exists w' : window,
    _reset_selection w = (Py.Normal tt, w', []) /\
    start_time w' = None /\ end_time w' = None /\ click_count w' = 0%nat /\
    confirm_btn w' = false /\ ax2 w' = ax2 w /\
    start_line w' = None /\ end_line w' = None /\
    start_line2 w' = None /\ end_line2 w' = None.
Proof.
  destruct w as [d tc pc wc st en cc sl el sl2 el2 fg a2 ci tdn slab elab cb ds].
  eexists. split; [vm_compute; reflexivity|]. repeat split.
Qed.

Lemma delivered_same_axes (w w' : window) (event : MouseEvent) (x : R) :
  ax2 w' = ax2 w -> delivered w event x -> delivered w' event x.
Proof.
  intros Ha [Hax Hx]. split; [|exact Hx]. rewrite Ha. exact Hax.
Qed.

Lemma after_first_click_axes (x : R) (w : window) :
  ax2 (after_first_click x w) = ax2 w.
Proof.
  destruct w as [d tc pc wc st en cc sl el sl2 el2 fg a2 ci tdn slab elab cb ds].
  unfold after_first_click. cbn. destruct a2; reflexivity.
Qed.

(** A reset makes the next two delivered clicks a pair, whatever the state
    was (also in the middle of a pair): the window ends with
    start = min(x1, x2), end = max(x1, x2) and the confirm button enabled. *)
Theorem reset_then_pair (w : window) (e1 e2 : MouseEvent) (x1 x2 : R) :
  delivered w e1 x1 -> delivered w e2 x2 ->
  let w' := run [Reset; Click e1; Click e2] w in
  start_time w' = Some (Rmin x1 x2) /\
  end_time w' = Some (Rmax x1 x2) /\
  confirm_btn w' = true /\
  click_count w' = 0%nat.
Proof.
  intros Hd1 Hd2. cbv zeta. unfold run. cbn [fold_left]. unfold perform.
  destruct (reset_result w) as (w0 & Hrun0 & _ & _ & Hc0 & _ & Ha0 & _).
  rewrite Hrun0. run_simpl.
  pose proof (delivered_same_axes w w0 e1 x1 Ha0 Hd1) as Hd1'.
  rewrite (SelectorFacts.first_click w0 e1 x1 Hc0 Hd1'). run_simpl.
  destruct (SelectorFacts.after_first_click_selection x1 w0 Hc0) as (Hc1 & Hs1 & _).
  assert (Hd2' : delivered (after_first_click x1 w0) e2 x2).
  { apply delivered_same_axes with w; [|exact Hd2].
    rewrite after_first_click_axes. exact Ha0. }
  destruct (SelectorFacts.second_click _ e2 x2 x1 Hc1 Hs1 Hd2')
    as (w2 & Hrun2 & Hst & Hen & Hcb & Hcc & _).
  rewrite Hrun2. run_simpl.
  destruct (SelectorFacts.swapped_is_min_max x2 x1) as [Emin Emax].
  rewrite Hst, Hen, Emin, Emax. repeat split; assumption.
Qed.

Lemma reset_then_pair_witness :
  let w' := run [Reset; Click (click_at 7); Click (click_at 3)]
              (after_first_click 100 (fresh two_rows "Time" "Pressure" "Weight")) in
  start_time w' = Some (Rmin 7 3) /\ end_time w' = Some (Rmax 7 3).
Proof.
  cbv zeta.
  destruct (reset_then_pair
              (after_first_click 100 (fresh two_rows "Time" "Pressure" "Weight"))
              (click_at 7) (click_at 3) 7 3
              (conj (or_introl eq_refl) eq_refl)
              (conj (or_introl eq_refl) eq_refl)) as (H1 & H2 & _).
  split; assumption.
Defined.

Lemma after_first_click_lines (x : R) (w : window) :
  start_line (after_first_click x w) = Some x /\
  end_line (after_first_click x w) = None /\
  end_line2 (after_first_click x w) = None /\
  start_line2 (after_first_click x w) = (if ax2 w then Some x else None).
Proof.
  destruct w as [d tc pc wc st en cc sl el sl2 el2 fg a2 ci tdn slab elab cb ds].
  unfold after_first_click. cbn. destruct a2; repeat split.
Qed.

(** After a completed pair the next delivered click starts a new pair: it
    becomes the start, the old end and the old end lines are gone, and the
    confirm button is disabled again. *)
Theorem third_click_restarts (w : window) (e1 e2 e3 : MouseEvent) (x1 x2 x3 : R) :
  click_count w = 0%nat ->
  delivered w e1 x1 -> delivered w e2 x2 -> delivered w e3 x3 ->
  let w' := run [Click e1; Click e2; Click e3] w in
  start_time w' = Some x3 /\ end_time w' = None /\
  confirm_btn w' = false /\ click_count w' = 1%nat /\
  start_line w' = Some x3 /\ end_line w' = None /\ end_line2 w' = None.
Proof.
  intros Hc Hd1 Hd2 Hd3. cbv zeta. unfold run. cbn [fold_left]. unfold perform.
  rewrite (SelectorFacts.first_click w e1 x1 Hc Hd1). run_simpl.
  destruct (SelectorFacts.after_first_click_selection x1 w Hc) as (Hc1 & Hs1 & _).
  pose proof (after_first_click_axes x1 w) as Ha1.
  destruct (SelectorFacts.second_click _ e2 x2 x1 Hc1 Hs1
              (delivered_same_axes w _ e2 x2 Ha1 Hd2))
    as (w2 & Hrun2 & _ & _ & _ & Hc2 & Ha2).
  rewrite Hrun2. run_simpl.
  assert (Ha2' : ax2 w2 = ax2 w) by (rewrite Ha2; exact Ha1).
  rewrite (SelectorFacts.first_click w2 e3 x3 Hc2
             (delivered_same_axes w w2 e3 x3 Ha2' Hd3)). run_simpl.
  destruct (SelectorFacts.after_first_click_selection x3 w2 Hc2) as (H1 & H2 & H3 & H4).
  destruct (after_first_click_lines x3 w2) as (L1 & L2 & L3 & _).
  repeat split; assumption.
Qed.

Lemma third_click_restarts_witness :
  let w' := run [Click (click_at 7); Click (click_at 3); Click (click_at 5)]
              (fresh two_rows "Time" "Pressure" "Weight") in
  start_time w' = Some 5 /\ end_time w' = None /\ confirm_btn w' = false.
Proof.
  cbv zeta.
  destruct (third_click_restarts (fresh two_rows "Time" "Pressure" "Weight")
              (click_at 7) (click_at 3) (click_at 5) 7 3 5 eq_refl
              (conj (or_introl eq_refl) eq_refl)
              (conj (or_introl eq_refl) eq_refl)
              (conj (or_introl eq_refl) eq_refl)) as (H1 & H2 & H3 & _).
  repeat split; assumption.
Defined.

(** A click outside the plot axes, on the weight axes of a plot that has
    none, or without x data changes nothing and shows nothing. *)
Theorem ignored_click_changes_nothing (w : window) (event : MouseEvent) :
  ignored w event -> _on_plot_click event w = (Py.Returned, w, []).
Proof.
  destruct w as [d tc pc wc st en cc sl el sl2 el2 fg a2 ci tdn slab elab cb ds].
  destruct event as [ia xd]. unfold ignored. cbn [xdata inaxes ax2].
  intros [->|[->|[->|[-> ->]]]];
    try (destruct a2, ia as [[| |]|]); try destruct a2; try destruct xd;
    vm_compute; reflexivity.
Qed.

Lemma ignored_click_changes_nothing_witness :
  _on_plot_click (mk_event (Some Ax2) (Some 4)) (fresh two_rows "Time" "Pressure" "") =
  (Py.Returned, fresh two_rows "Time" "Pressure" "", []).
Proof.
  apply ignored_click_changes_nothing.
  right. right. right. split; reflexivity.
Defined.







End SelectorMore.

(** ** More on the derived-rate estimator *)

Module RateMore.
Import CdAPlotWindow RateSpec.

Lemma sums_on_a_line (m c : R) (samples : list (R * R)) :
  (forall t wt : R, In (t, wt) samples -> wt = m * t + c) ->
  Np.dot (map fst samples) (map snd samples) =
    m * Np.dot (map fst samples) (map fst samples) + c * Np.sum (map fst samples) /\
  Np.sum (map snd samples) =
    m * Np.sum (map fst samples) + INR (List.length samples) * c.
Proof.
  rewrite !RateFacts.dot_map.
  induction samples as [|[t wt] l IH]; intros Hline.
  - cbn. split; ring.
  - destruct IH as [IH1 IH2].
    { intros t' wt' Hin. apply Hline. right. exact Hin. }
    cbn [map Np.sum fst snd List.length]. rewrite S_INR, IH1, IH2.
    rewrite (Hline t wt (or_introl eq_refl)). split; ring.
Qed.

Lemma slope_of_a_line (m c : R) (samples : list (R * R)) :
  (forall t wt : R, In (t, wt) samples -> wt = m * t + c) ->
  time_varies samples ->
  Np.fit_slope (map fst samples) (map snd samples) = m.
Proof.
  intros Hline Hv. pose proof (RateFacts.denominator_pos samples Hv) as HD.
  destruct (sums_on_a_line m c samples Hline) as [E1 E2].
  unfold Np.fit_slope. unfold Np.fit_denominator in *. rewrite length_map in *.
  rewrite E1, E2.
  set (n := INR (List.length samples)) in *.
  set (St := Np.sum (map fst samples)) in *.
  set (Stt := Np.dot (map fst samples) (map fst samples)) in *.
  field. lra.
Qed.

Lemma varying_has_two (samples : list (R * R)) :
  time_varies samples -> (2 <= List.length samples)%nat.
Proof.
  intros (p & q & Hp & Hq & Hne).
  destruct samples as [|a [|b l]]; cbn; try lia.
  - destruct Hp.
  - destruct Hp as [<-|[]], Hq as [<-|[]]. contradiction.
Qed.

(** A tank that loses weight at a constant rate is measured exactly: when
    the valid samples of the window lie on a line weight = m * time + c and
    their times are not all equal, [_calculate_mdot] returns -m * 0.453592,
    whatever the intercept and however many samples there are. *)
Theorem constant_drain_is_recovered
  (lstsq_rank_deficient : list R -> list R -> option (R * R))
  (w : window) (start end_ m c : R) (cells : list Pd.cell) (time : list Np.float) :
  start_time w = Some start -> end_time w = Some end_ ->
  Str.is_empty (weight_col w) = false ->
  time_data_numeric w = Some time ->
  Pd.getitem (df w) (weight_col w) = Some cells ->
  List.length time = List.length cells ->
  let samples := valid_samples start end_ (combine time (Pd.to_numeric cells)) in
  (forall t wt : R, In (t, wt) samples -> wt = m * t + c) ->
  time_varies samples ->
  _calculate_mdot lstsq_rank_deficient w = Some (- m * 0.453592).
Proof.
  intros Hs He Hwc Ht Hg Hlen samples Hline Hv.
  rewrite (RateFacts.calculate_mdot_cases lstsq_rank_deficient w start end_ cells time
             Hs He Hwc Ht Hg Hlen).
  fold samples.
  pose proof (varying_has_two samples Hv) as H2.
  pose proof (RateFacts.denominator_pos samples Hv) as HD.
  destruct (Nat.ltb_spec (List.length samples) 2) as [Hlt|_]; [lia|].
  destruct (Req_dec_T (Np.fit_denominator (map fst samples)) 0) as [E0|_]; [lra|].
  rewrite (slope_of_a_line m c samples Hline Hv). reflexivity.
Qed.

Lemma constant_drain_is_recovered_witness :
  _calculate_mdot no_answer draining = Some (- (-2) * 0.453592).
Proof.
  apply (constant_drain_is_recovered no_answer draining 0 1 (-2) 10
           [Pd.Number 10; Pd.Number 8] [Np.fin 0; Np.fin 1]);
    try reflexivity.
  - rewrite RateFacts.draining_samples.
    intros t wt [H|[H|[]]]; injection H as <- <-; lra.
  - rewrite RateFacts.draining_samples.
    exists (0, 10), (1, 8). cbn. repeat split; auto; lra.
Defined.

End RateMore.

(** ** More on plot decimation *)

Module DecimationMore.
Import CdAPlotWindow DecimationSpec.

Lemma arange_from_length (start step count : nat) :
  List.length (Np.arange_from start step count) = count.
Proof.
  revert start. induction count as [|c IH]; intros start; [reflexivity|].
  cbn. rewrite IH. reflexivity.
Qed.

Lemma arange_from_nth (start step count k : nat) :
  (k < count)%nat ->
  nth_error (Np.arange_from start step count) k = Some (start + k * step)%nat.
Proof.
  revert start k. induction count as [|c IH]; intros start k Hk; [lia|].
  destruct k as [|k]; cbn.
  - f_equal. lia.
  - rewrite IH by lia. f_equal. lia.
Qed.

Lemma arange_from_in (start step count i : nat) :
  In i (Np.arange_from start step count) ->
  exists k : nat, (k < count)%nat /\ i = (start + k * step)%nat.
Proof.
  revert start. induction count as [|c IH]; intros start; [intros []|].
  cbn. intros [<-|Hin].
  - exists 0%nat. split; lia.
  - destruct (IH _ Hin) as (k & Hk & ->). exists (S k). split; lia.
Qed.

(** The number of points of [np.arange(0, n, step)]. *)
Lemma arange_length (n step : nat) :
  List.length (Np.arange n step) = ((n + step - 1) / step)%nat.
Proof. unfold Np.arange. apply arange_from_length. Qed.

Lemma arange_in_range (n step i : nat) :
  (1 <= step)%nat -> In i (Np.arange n step) -> (i < n)%nat.
Proof.
  intros Hs Hin. unfold Np.arange in Hin.
  destruct (arange_from_in _ _ _ _ Hin) as (k & Hk & ->).
  pose proof (Nat.Div0.mul_div_le (n + step - 1) step) as H.
  nia.
Qed.

(** The count kept by a stride of [n // max_points]. *)
Lemma stride_count_bounds (n max_points : nat) :
  (1 <= max_points)%nat -> (max_points < n)%nat ->
  let step := (n / max_points)%nat in
  (1 <= step)%nat /\
  (max_points <= (n + step - 1) / step < 2 * max_points)%nat.
Proof.
  intros Hm Hn step.
  assert (Hstep : (1 <= step)%nat).
  { unfold step. apply Nat.div_le_lower_bound; lia. }
  pose proof (Nat.div_mod_eq n max_points) as E.
  pose proof (Nat.mod_upper_bound n max_points ltac:(lia)) as Hr.
  fold step in E.
  pose proof (Nat.div_mod_eq (n + step - 1) step) as E2.
  pose proof (Nat.mod_upper_bound (n + step - 1) step ltac:(lia)) as Hr2.
  set (c := ((n + step - 1) / step)%nat) in *.
  split; [exact Hstep|]. split; nia.
Qed.

Lemma arange_from_seq (start count : nat) :
  Np.arange_from start 1 count = seq start count.
Proof.
  revert start. induction count as [|c IH]; intros start; [reflexivity|].
  cbn. f_equal. rewrite IH. f_equal. lia.
Qed.

Lemma arange_step_1 (n : nat) : Np.arange n 1 = seq 0 n.
Proof.
  unfold Np.arange. replace ((n + 1 - 1) / 1)%nat with n
    by (rewrite Nat.div_1_r; lia).
  apply arange_from_seq.
Qed.

Lemma take_indices_ok {A : Type} (data : list A) (indices : list nat) :
  (forall i : nat, In i indices -> (i < List.length data)%nat) ->
  exists picked : list A,
    Np.take_indices data indices = Some picked /\
    List.length picked = List.length indices /\
    forall k i : nat,
      nth_error indices k = Some i -> nth_error picked k = nth_error data i.
Proof.
  induction indices as [|j l IH]; intros Hall.
  - exists []. repeat split. intros [|k] i H; discriminate H.
  - destruct IH as (picked & Hp & Hlen & Hnth).
    { intros i Hi. apply Hall. right. exact Hi. }
    destruct (nth_error data j) as [x|] eqn:Hj.
    + exists (x :: picked). cbn. rewrite Hj, Hp. repeat split.
      * cbn. rewrite Hlen. reflexivity.
      * intros [|k] i H; cbn in *.
        -- injection H as <-. symmetry. exact Hj.
        -- apply Hnth. exact H.
    + apply nth_error_None in Hj. specialize (Hall j (or_introl eq_refl)). lia.
Qed.

(** [_downsample_data] returns the data untouched when it has at most
    [max_points] elements.  With more, it keeps every (n // max_points)-th
    element from the first on, without an index error, and what it keeps
    numbers at least [max_points] and fewer than twice [max_points] elements:
    [max_points] is not an upper bound.  [max_points = 0] raises
    ZeroDivisionError on non-empty data. *)
Theorem downsample_data_spec {A : Type} (data : list A) (max_points : nat) :
  let n := List.length data in
  ((n <= max_points)%nat ->
     _downsample_data data max_points = inr (data, seq 0 n)) /\
  ((1 <= max_points)%nat -> (max_points < n)%nat ->
     exists (picked : list A) (indices : list nat),
       _downsample_data data max_points = inr (picked, indices) /\
       List.length picked = List.length indices /\
       (max_points <= List.length picked < 2 * max_points)%nat /\
       forall k : nat, (k < List.length picked)%nat ->
         nth_error indices k = Some (k * (n / max_points))%nat /\
         nth_error picked k = nth_error data (k * (n / max_points))) /\
  (max_points = 0%nat -> (0 < n)%nat ->
     _downsample_data data max_points = inl Py.ZeroDivisionError).
Proof.
  cbv zeta. unfold _downsample_data. split; [|split].
  - intros Hle. apply Nat.leb_le in Hle. rewrite Hle, arange_step_1. reflexivity.
  - intros Hm Hn.
    destruct (Nat.leb_spec (List.length data) max_points) as [Hle|_]; [lia|].
    destruct (Nat.eqb_spec max_points 0) as [E|_]; [lia|].
    destruct (stride_count_bounds (List.length data) max_points Hm Hn)
      as (Hstep & Hlo & Hhi).
    set (step := (List.length data / max_points)%nat) in *.
    destruct (take_indices_ok data (Np.arange (List.length data) step))
      as (picked & Hp & Hlen & Hnth).
    { intros i Hi. apply arange_in_range with step; assumption. }
    rewrite Hp. exists picked, (Np.arange (List.length data) step).
    rewrite Hlen, arange_length.
    split; [reflexivity|]. split; [reflexivity|]. split; [lia|].
    intros k Hk.
    assert (Hidx : nth_error (Np.arange (List.length data) step) k = Some (k * step)%nat).
    { unfold Np.arange. rewrite arange_from_nth by exact Hk. reflexivity. }
    split; [exact Hidx|]. apply Hnth. exact Hidx.
  - intros -> Hn.
    destruct (Nat.leb_spec (List.length data) 0) as [Hle|_]; [lia|]. reflexivity.
Qed.

Lemma downsample_data_spec_witness :
  exists (picked : list nat) (indices : list nat),
    _downsample_data [10; 11; 12; 13; 14]%nat 2 = inr (picked, indices) /\
    (2 <= List.length picked < 4)%nat.
Proof.
  destruct (proj1 (proj2 (downsample_data_spec [10; 11; 12; 13; 14]%nat 2)))
    as (picked & indices & H & _ & Hb & _).
  - lia.
  - cbn. lia.
  - exists picked, indices. split; [exact H|exact Hb].
Defined.

Lemma take_indices_length {A : Type} (data : list A) (indices : list nat)
  (picked : list A) :
  Np.take_indices data indices = Some picked ->
  List.length picked = List.length indices.
Proof.
  revert picked. induction indices as [|i l IH]; intros picked; cbn.
  - intros H. injection H as <-. reflexivity.
  - destruct (nth_error data i); [|discriminate].
    destruct (Np.take_indices data l) as [r|]; [|discriminate].
    intros H. injection H as <-. cbn. rewrite (IH r eq_refl). reflexivity.
Qed.

Lemma plotted_count_bound (n : nat) :
  (MAX_PLOT_POINTS < n)%nat ->
  (List.length (Np.arange n (Nat.max 1 (n / MAX_PLOT_POINTS))) < 2 * MAX_PLOT_POINTS)%nat.
Proof.
  intros Hn.
  destruct (stride_count_bounds n MAX_PLOT_POINTS ltac:(unfold MAX_PLOT_POINTS; lia) Hn)
    as (Hstep & _ & Hhi).
  rewrite Nat.max_r by exact Hstep. rewrite arange_length. exact Hhi.
Qed.

Ltac plotted_bound :=
  match goal with
  | H : Np.take_indices _ (Np.arange ?n _) = Some ?l,
    Hb : (MAX_PLOT_POINTS <? ?n)%nat = true |- (List.length ?l < _)%nat =>
      rewrite (take_indices_length _ _ _ H);
      apply plotted_count_bound; apply Nat.ltb_lt; exact Hb
  | Hb : (MAX_PLOT_POINTS <? List.length ?l)%nat = false
    |- (List.length ?l < _)%nat =>
      apply Nat.ltb_ge in Hb; unfold MAX_PLOT_POINTS in *; lia
  | |- (0 < _)%nat => unfold MAX_PLOT_POINTS; lia
  end.

(** Whatever the table, [_create_plot] hands matplotlib fewer than twice
    [MAX_PLOT_POINTS] points (at most 3999), and none when it fails. *)
Theorem plotted_points_below_twice_max (w : window) :
  (plotted_points (Py.state_of (_create_plot w)) < 2 * MAX_PLOT_POINTS)%nat.
Proof.
  unfold _create_plot, _prepare_plot_data, _cleanup_and_close.
  py_eval.
  repeat (destruct_scrutinee; py_eval); run_simpl;
    destruct w; unfold plotted_points;
    cbn [fig set_cid set_fig set_ax2 set_destroyed set_time_data_numeric time_plot];
    plotted_bound.
Qed.

End DecimationMore.

(** ** More on the two calculator panels *)

Module CdAMore.
Import CdACalculatorWindow CdASpec.

Lemma shows_cda_stored (cda : R) (w : window) :
  calculated_cda (shows_cda cda w) = Some cda /\
  result_label (shows_cda cda w) = Py.Fmt "CdA = " cda ".8f" "".
Proof. destruct w. split; reflexivity. Qed.

Lemma stored_cda (w : window) (p_high p_low rho mdot : R) :
  p_high_var w = Py.Numeric p_high ->
  p_low_var w = Py.Numeric p_low ->
  rho_var w = Py.Numeric rho ->
  calculated_mdot w = Some mdot ->
  p_low < p_high -> 0 < rho ->
  calculated_cda (Py.state_of (_calculate_cda w)) =
    Some (mdot / sqrt (2 * rho * delta_p_of p_high p_low)).
Proof.
  intros Hh Hl Hr Hm Hp Hrho.
  rewrite (CdAFacts.calculate_cda_ok w p_high p_low rho mdot Hh Hl Hr Hm Hp Hrho).
  run_simpl. apply shows_cda_stored.
Qed.

Lemma radicand_pos (p_high p_low rho : R) :
  p_low < p_high -> 0 < rho -> 0 < 2 * rho * delta_p_of p_high p_low.
Proof.
  intros Hp Hrho. unfold delta_p_of, PSI_TO_PA.
  apply Rmult_lt_0_compat; lra.
Qed.

(** In exact arithmetic (rounding is the subject of [Binary64]), the stored
    CdA is proportional to the mass flow rate, and for a positive rate it
    falls strictly when the upstream pressure rises or when the density
    rises, everything else the same. *)
Theorem cda_scales_with_rate_and_falls_with_pressure
  (w : window) (p_high p_low rho mdot : R) :
  p_high_var w = Py.Numeric p_high ->
  p_low_var w = Py.Numeric p_low ->
  rho_var w = Py.Numeric rho ->
  calculated_mdot w = Some mdot ->
  p_low < p_high -> 0 < rho ->
  exists cda : R,
    calculated_cda (Py.state_of (_calculate_cda w)) = Some cda /\
    (forall k : R,
       calculated_cda
         (Py.state_of
            (_calculate_cda
               (with_cda_inputs (Py.Numeric p_high) (Py.Numeric p_low)
                  (Py.Numeric rho) (Some (k * mdot)) w))) = Some (k * cda)) /\
    (0 < mdot ->
     forall p_high' : R, p_high < p_high' ->
       exists cda' : R,
         calculated_cda
           (Py.state_of
              (_calculate_cda
                 (with_cda_inputs (Py.Numeric p_high') (Py.Numeric p_low)
                    (Py.Numeric rho) (Some mdot) w))) = Some cda' /\
         cda' < cda) /\
    (0 < mdot ->
     forall rho' : R, rho < rho' ->
       exists cda' : R,
         calculated_cda
           (Py.state_of
              (_calculate_cda
                 (with_cda_inputs (Py.Numeric p_high) (Py.Numeric p_low)
                    (Py.Numeric rho') (Some mdot) w))) = Some cda' /\
         cda' < cda).
Proof.
  intros Hh Hl Hr Hm Hp Hrho.
  pose proof (radicand_pos p_high p_low rho Hp Hrho) as Hrad.
  pose proof (sqrt_lt_R0 _ Hrad) as Hs.
  exists (mdot / sqrt (2 * rho * delta_p_of p_high p_low)).
  split; [apply stored_cda; assumption|]. split; [|split].
  - intros k.
    rewrite (stored_cda _ p_high p_low rho (k * mdot));
      try (destruct w; reflexivity); try assumption.
    f_equal. field. lra.
  - intros Hmdot p_high' Hp'.
    pose proof (radicand_pos p_high' p_low rho ltac:(lra) Hrho) as Hrad'.
    eexists. split.
    + apply (stored_cda _ p_high' p_low rho mdot);
        try (destruct w; reflexivity); lra.
    + assert (Hlt : sqrt (2 * rho * delta_p_of p_high p_low) <
                    sqrt (2 * rho * delta_p_of p_high' p_low)).
      { apply sqrt_lt_1; try lra. unfold delta_p_of, PSI_TO_PA in *. nra. }
      unfold Rdiv. apply Rmult_lt_compat_l; [exact Hmdot|].
      apply Rinv_lt_contravar; [|exact Hlt].
      apply Rmult_lt_0_compat; [exact Hs|lra].
  - intros Hmdot rho' Hrho'.
    pose proof (radicand_pos p_high p_low rho' Hp ltac:(lra)) as Hrad'.
    eexists. split.
    + apply (stored_cda _ p_high p_low rho' mdot);
        try (destruct w; reflexivity); lra.
    + assert (Hlt : sqrt (2 * rho * delta_p_of p_high p_low) <
                    sqrt (2 * rho' * delta_p_of p_high p_low)).
      { apply sqrt_lt_1; try lra.
        assert (0 < delta_p_of p_high p_low) by (unfold delta_p_of, PSI_TO_PA; lra).
        nra. }
      unfold Rdiv. apply Rmult_lt_compat_l; [exact Hmdot|].
      apply Rinv_lt_contravar; [|exact Hlt].
      apply Rmult_lt_0_compat; [exact Hs|lra].
Qed.

Lemma cda_scales_with_rate_and_falls_with_pressure_witness :
  exists cda : R,
    calculated_cda (Py.state_of (_calculate_cda example_window)) = Some cda /\
    calculated_cda
      (Py.state_of
         (_calculate_cda
            (with_cda_inputs (Py.Numeric 500) (Py.Numeric 14.7) (Py.Numeric 1000)
               (Some (2 * 0.5)) example_window))) = Some (2 * cda).
Proof.
  destruct (cda_scales_with_rate_and_falls_with_pressure example_window
              500 14.7 1000 0.5 eq_refl eq_refl eq_refl eq_refl)
    as (cda & H1 & H2 & _).
  - lra.
  - lra.
  - exists cda. split; [exact H1|exact (H2 2)].
Defined.

(** In exact arithmetic (rounding is the subject of [Binary64]), the set
    pressure shown is never below the manifold pressure, and the Pa label
    shows the same pressure as the PSI label, times 6894.76. *)
Theorem set_pressure_is_above_manifold (w : window) (cda mdot rho manifold : R) :
  setpoint_cda_var w = Py.Numeric cda ->
  setpoint_mdot_var w = Py.Numeric mdot ->
  setpoint_rho_var w = Py.Numeric rho ->
  manifold_p_var w = Py.Numeric manifold ->
  0 < cda -> 0 < rho ->
  exists p_set_psi : R,
    setpoint_result_label (Py.state_of (_calculate_setpoint w)) =
      Py.Fmt "P_set = " p_set_psi ".1f" " PSI" /\
    setpoint_result_pa (Py.state_of (_calculate_setpoint w)) =
      Py.Fmt "(" (p_set_psi * 6894.76) ".0f" " Pa)" /\
    manifold <= p_set_psi.
Proof.
  intros Hc Hm Hr Hp Hcda Hrho.
  rewrite (CdAFacts.calculate_setpoint_ok w cda mdot rho manifold Hc Hm Hr Hp Hcda Hrho).
  run_simpl.
  set (delta_p := (mdot / cda) ^ 2 / (2 * rho)).
  destruct (CdAFacts.shows_setpoint_labels
              ((delta_p + manifold * PSI_TO_PA) / PSI_TO_PA)
              (delta_p + manifold * PSI_TO_PA) w) as [L1 L2].
  exists ((delta_p + manifold * PSI_TO_PA) / PSI_TO_PA).
  assert (Hq : 0 <= (mdot / cda) ^ 2) by (apply pow2_ge_0).
  assert (Hd : 0 <= delta_p).
  { unfold delta_p. apply Rmult_le_pos; [exact Hq|].
    apply Rlt_le. apply Rinv_0_lt_compat. lra. }
  assert (E : (delta_p + manifold * PSI_TO_PA) / PSI_TO_PA =
              manifold + delta_p / PSI_TO_PA).
  { unfold PSI_TO_PA. field. lra. }
  assert (Hk : 0 < / PSI_TO_PA).
  { apply Rinv_0_lt_compat. unfold PSI_TO_PA. lra. }
  split; [exact L1|]. split.
  - rewrite L2. f_equal. unfold PSI_TO_PA. field. lra.
  - rewrite E. unfold Rdiv. nra.
Qed.

Lemma set_pressure_is_above_manifold_witness :
  exists p_set_psi : R,
    setpoint_result_label (Py.state_of (_calculate_setpoint example_setpoint_window)) =
      Py.Fmt "P_set = " p_set_psi ".1f" " PSI" /\
    50 <= p_set_psi.
Proof.
  destruct (set_pressure_is_above_manifold example_setpoint_window 1.934e-4 0.5 1000 50
              eq_refl eq_refl eq_refl eq_refl) as (p & H1 & _ & H3).
  - lra.
  - lra.
  - exists p. split; [exact H1|exact H3].
Defined.

End CdAMore.
